(** * Terminal Velocity: the urwid console front end

    A shallow embedding of [terminal_velocity/urwid_ui.py]: the search box
    with autocompletion ([AutocompleteWidget]), the filterable note list
    ([NoteFilterListBox]) and the top-level frame ([MainFrame]) that keeps
    the typed query, the autocomplete suggestion and the selected note in
    step while keys are pressed.

    Python objects are records, attribute assignment is record update, and a
    method that mutates [self] is a function from the old object to the new
    one.  A method that can raise returns an [outcome]. Calls that leave the
    module (the notebook, the editor process) are logged in a trace. *)

From Stdlib Require Import ZArith String Ascii List Lia Sorted Permutation Bool.
From stdpp Require Import base gmap list strings.
Import ListNotations.
Local Open Scope string_scope.

(** ** Python strings

    [str] is modelled by [string], a sequence of characters, a character
    being one of the 256 values of [ascii]; slicing, [startswith], [in] and
    [len] work on the characters as such. *)

(** [s.startswith(p)] *)
Fixpoint startswith (s p : string) : bool :=
  match p, s with
  | EmptyString, _ => true
  | String _ _, EmptyString => false
  | String a p', String b s' => Ascii.eqb a b && startswith s' p'
  end.

(** [p in s] *)
Fixpoint str_in (p s : string) : bool :=
  startswith s p ||
  match s with
  | EmptyString => false
  | String _ s' => str_in p s'
  end.

(** [s[:n]] and [s[n:]] *)
Fixpoint str_take (n : nat) (s : string) : string :=
  match n, s with
  | S n', String c s' => String c (str_take n' s')
  | _, _ => EmptyString
  end.

Fixpoint str_drop (n : nat) (s : string) : string :=
  match n, s with
  | S n', String _ s' => str_drop n' s'
  | _, _ => s
  end.

(** Truth value of a [str] and of an optional [str] ([None] and the empty
    string are false). *)
Definition str_bool (s : string) : bool := negb (String.eqb s "").

Definition opt_bool (o : option string) : bool :=
  match o with
  | Some s => str_bool s
  | None => false
  end.

(** ** What is looked up in Unicode tables

    Two things the module does with text depend on tables that are not part
    of it: [str.lower], Python's case mapping, which can change the length
    of a string, and the number of screen columns a character takes, which
    urwid looks up when it places the cursor.  Both are parameters of the
    model; of the case mapping only that the empty string stays empty is
    used. *)
Class Tables := {
  lower : string -> string;          (* [s.lower()] *)
  char_width : ascii -> nat;         (* urwid's [get_width] *)
  lower_empty : lower "" = ""
}.

Section UnicodeTables.
Context `{T : Tables}.

(** The case-insensitive prefix test the module writes as
    [title.lower().startswith(query.lower())]. *)
Definition starts_ci (title query : string) : bool :=
  startswith (lower title) (lower query).

(** ** Notes and the notebook *)

(** The three attributes of a note the module reads. *)
Record Note := mkNote {
  abspath : string;
  title : string;
  mtime : Z
}.

(** Modelled from the spec: [note == other] of the notebook module, which is
    not part of this file; a note's identity is its absolute path. *)
Definition note_eqb (a b : Note) : bool := String.eqb (abspath a) (abspath b).

(** Modelled from the spec: the notebook object of the [notebook] module
    ([PlainTextNoteBook]), of which this file only sees [len], [search],
    [add_new] and [extension].  [notes_dir] and [now] stand for the
    directory and the clock the store stamps a new note with. *)
Record PlainTextNoteBook := mkNoteBook {
  notes_dir : string;
  extension : string;
  notes : list Note;
  now : Z
}.

(** Modelled from the spec: [notebook.search(query)], all notes whose title
    contains [query] as a case-insensitive substring, in listing order (the
    empty query matches every note). *)
Definition search (nb : PlainTextNoteBook) (query : string) : list Note :=
  List.filter (fun n => str_in (lower query) (lower (title n))) (notes nb).

Inductive add_new_result :=
| Added (n : Note) (nb' : PlainTextNoteBook)
| NoteAlreadyExistsError
| InvalidNoteTitleError.

(** Modelled from the spec: [notebook.add_new(title)], which fails with
    [NoteAlreadyExistsError] when a note of that title exists, with
    [InvalidNoteTitleError] when the title is empty or holds a path
    separator, and otherwise stores and returns a new note of exactly that
    title. *)
Definition add_new (nb : PlainTextNoteBook) (t : string) : add_new_result :=
  if existsb (fun n => String.eqb (title n) t) (notes nb) then
    NoteAlreadyExistsError
  else if String.eqb t "" || str_in "/" t then
    InvalidNoteTitleError
  else
    let n := {| abspath := notes_dir nb ++ "/" ++ t ++ extension nb;
                title := t;
                mtime := now nb |} in
    Added n {| notes_dir := notes_dir nb;
               extension := extension nb;
               notes := (notes nb ++ [n])%list;
               now := now nb |}.

(** ** [list.sort(key=lambda x: x.mtime, reverse=True)]

    Python's sort is stable, also with [reverse=True]: notes with equal
    [mtime] keep their relative order.  The result is the one an insertion
    from the right gives, where a note goes in front of the first note that
    is not newer than it. *)

Fixpoint insert_desc (n : Note) (l : list Note) : list Note :=
  match l with
  | [] => [n]
  | m :: l' =>
      if (mtime m <=? mtime n)%Z then n :: l else m :: insert_desc n l'
  end.

Definition sort_by_mtime_desc (l : list Note) : list Note :=
  foldr insert_desc [] l.

(** ** [shlex.quote] *)

Definition is_safe_char (c : ascii) : bool :=
  let k := nat_of_ascii c in
  ((48 <=? k)%nat && (k <=? 57)%nat) ||
  ((65 <=? k)%nat && (k <=? 90)%nat) ||
  ((97 <=? k)%nat && (k <=? 122)%nat) ||
  existsb (Nat.eqb k) [95; 64; 37; 43; 61; 58; 44; 46; 47; 45]%nat.

Fixpoint all_safe (s : string) : bool :=
  match s with
  | EmptyString => true
  | String c s' => is_safe_char c && all_safe s'
  end.

Definition squote : ascii := ascii_of_nat 39.
Definition dquote : ascii := ascii_of_nat 34.

(** [s.replace("'", "'\"'\"'")] *)
Fixpoint escape_squotes (s : string) : string :=
  match s with
  | EmptyString => EmptyString
  | String c s' =>
      if Ascii.eqb c squote then
        String squote (String dquote (String squote (String dquote
          (String squote (escape_squotes s')))))
      else String c (escape_squotes s')
  end.

Definition quote (s : string) : string :=
  if negb (str_bool s) then "''"
  else if all_safe s then s
  else String squote (escape_squotes s ++ String squote EmptyString).

(** ** Results of methods that can raise

    A Python method either returns a value or raises; in both cases the
    object it mutated stays mutated, so both carry the state. *)

Inductive exn :=
| AttributeError   (* [None.note] *)
| TypeError        (* [len(None)] *)
| ExitMainLoop.    (* [urwid.ExitMainLoop], raised by [quit] *)

Inductive outcome (S A : Type) :=
| Return (a : A) (s : S)
| Raise (e : exn) (s : S).
#[global] Arguments Return {S A} a s.
#[global] Arguments Raise {S A} e s.

Definition bind {S A B : Type} (m : outcome S A) (k : A -> S -> outcome S B)
  : outcome S B :=
  match m with
  | Return a s => k a s
  | Raise e s => Raise e s
  end.

Definition state_of {S A : Type} (m : outcome S A) : S :=
  match m with
  | Return _ s => s
  | Raise _ s => s
  end.

(** ** [AutocompleteWidget], a [urwid.Edit] with a suggestion *)

(** A styled range of the text of a widget: a display attribute and the
    number of characters it covers. *)
Definition span : Type := string * Z.

(** [edit_text], [edit_pos] and [_shift_view_to_cursor] are the state of
    the [urwid.Edit] base class; [fake_focus] and [autocomplete_text] are
    added by the subclass.  The program builds the box without a caption
    and with [wrap="clip"], so the base class's caption, always empty, is
    left out, and a line of text is one row of the layout. *)
Record AutocompleteWidget := mkAutocompleteWidget {
  edit_text : string;
  edit_pos : nat;
  _shift_view_to_cursor : bool;
  fake_focus : bool;
  autocomplete_text : option string
}.

(** [AutocompleteWidget(wrap="clip")]: nothing typed, cursor at the start,
    no suggestion. *)
Definition AutocompleteWidget_init : AutocompleteWidget :=
  {| edit_text := ""; edit_pos := 0; _shift_view_to_cursor := false;
     fake_focus := true; autocomplete_text := None |}.

Definition set_autocomplete_text (text : option string) (w : AutocompleteWidget)
  : AutocompleteWidget :=
  {| edit_text := edit_text w;
     edit_pos := edit_pos w;
     _shift_view_to_cursor := _shift_view_to_cursor w;
     fake_focus := fake_focus w;
     autocomplete_text := text |}.

Definition set_edit_pos (p : nat) (w : AutocompleteWidget) : AutocompleteWidget :=
  {| edit_text := edit_text w;
     edit_pos := Nat.min p (String.length (edit_text w));
     _shift_view_to_cursor := _shift_view_to_cursor w;
     fake_focus := fake_focus w;
     autocomplete_text := autocomplete_text w |}.

(** The assignment at the end of [urwid.Edit.set_edit_text]: the text is
    replaced and the cursor is pulled back into it. *)
Definition store_edit_text (text : string) (w : AutocompleteWidget)
  : AutocompleteWidget :=
  {| edit_text := text;
     edit_pos := Nat.min (edit_pos w) (String.length text);
     _shift_view_to_cursor := _shift_view_to_cursor w;
     fake_focus := fake_focus w;
     autocomplete_text := autocomplete_text w |}.

(** [urwid.Edit.get_text] of a box without caption: the typed text, and the
    styled ranges of the caption, of which there are none. *)
Definition Edit_get_text (w : AutocompleteWidget) : string * list span :=
  (edit_text w, []).

Definition placeholder : string := "Find or Create".

Definition len (s : string) : Z := Z.of_nat (String.length s).

(** [AutocompleteWidget.get_text] *)
Definition get_text (w : AutocompleteWidget) : string * list span :=
  if negb (str_bool (edit_text w)) && negb (opt_bool (autocomplete_text w)) then
    (placeholder, [("placeholder", len placeholder)])
  else
    match autocomplete_text w with
    | None => Edit_get_text w
    | Some a =>
        if negb (str_bool a) then Edit_get_text w
        else
          let is_substring := startswith (lower a) (lower (edit_text w)) in
          if str_bool (edit_text w) && is_substring then
            let text_to_show :=
              edit_text w ++ str_drop (String.length (edit_text w)) a in
            (text_to_show,
             [("search", len (edit_text w));
              ("autocomplete", (len text_to_show - len (edit_text w))%Z)])
          else
            (a, [("autocomplete", len a)])
    end.

(** The sum of the lengths of a list of styled ranges. *)
Definition spans_length (l : list span) : Z :=
  fold_right (fun sp acc => (snd sp + acc)%Z) 0%Z l.

(** [AutocompleteWidget.render]: the base class is asked to draw the box as
    focused or not by [fake_focus], and [urwid.Edit.render] notes that in
    [_shift_view_to_cursor]. *)
Definition AutocompleteWidget_render (w : AutocompleteWidget) : AutocompleteWidget :=
  {| edit_text := edit_text w;
     edit_pos := edit_pos w;
     _shift_view_to_cursor := fake_focus w;
     fake_focus := fake_focus w;
     autocomplete_text := autocomplete_text w |}.

(** *** Where a screen column falls in the text

    urwid lays the shown text out in rows, one per line of the text since
    the box clips, and finds the character at a column by adding up
    character widths. *)

Definition newline : ascii := ascii_of_nat 10.

(** The first line of a text: the characters before the first newline. *)
Fixpoint first_line (s : string) : string :=
  match s with
  | EmptyString => EmptyString
  | String c s' =>
      if Ascii.eqb c newline then EmptyString else String c (first_line s')
  end.

(** [urwid.calc_width]: the columns a piece of text takes. *)
Fixpoint calc_width (s : string) : nat :=
  match s with
  | EmptyString => 0
  | String c s' => char_width c + calc_width s'
  end.

(** [urwid.calc_text_pos] along one line, [sc] columns of which are
    behind: the index of the first character that would reach beyond
    column [pref_col], and the end of the line when none does. *)
Fixpoint calc_text_pos (line : string) (pref_col sc : nat) : nat :=
  match line with
  | EmptyString => 0
  | String c rest =>
      if (pref_col <? char_width c + sc)%nat then 0
      else S (calc_text_pos rest pref_col (sc + char_width c))
  end.

(** What [urwid.Edit.get_line_translation] does to the first row of a box
    one column wide: when the view follows the cursor and the cursor stands
    on that row at column [x], one or more, the row is shifted [x] columns
    to the left. *)
Definition view_shift (w : AutocompleteWidget) : nat :=
  let text := fst (get_text w) in
  let row := first_line text in
  let cursor_on_row :=
    (edit_pos w <=? String.length row)%nat ||
    (String.length text <=? String.length row)%nat in
  let x := calc_width (str_take (edit_pos w) row) in
  if _shift_view_to_cursor w && cursor_on_row && (1 <=? x)%nat then x else 0.

(** *** Methods that emit the [change] signal

    [urwid.Edit.set_edit_text] calls the handlers connected to the widget's
    [change] signal before it stores the text.  The widget lives inside some
    owner [S] (itself when nothing is connected, the [MainFrame] in the
    application); [on_change] is the connected handler, run on the owner. *)

Section SignalHost.
Context {S : Type}.
Variable widget : S -> AutocompleteWidget.
Variable with_widget : AutocompleteWidget -> S -> S.
Variable on_change : string -> S -> S.

Definition update_widget (f : AutocompleteWidget -> AutocompleteWidget)
  (s : S) : S :=
  with_widget (f (widget s)) s.

(** [urwid.Edit.set_edit_text(text)] *)
Definition set_edit_text (text : string) (s : S) : S :=
  update_widget (store_edit_text text) (on_change text s).

(** [urwid.Edit.move_cursor_to_coords((1,), x, 0)]: the cursor goes to the
    character of the first row of the shown text that covers screen column
    [x], or to the end of that row when the row is narrower, and then back
    into the typed text. *)
Definition move_cursor_to_coords (x : nat) (s : S) : S :=
  let w := widget s in
  let row := first_line (fst (get_text w)) in
  let pos := calc_text_pos row (x + view_shift w) 0 in
  let e_pos := Nat.min pos (String.length (edit_text w)) in
  update_widget
    (fun w => {| edit_text := edit_text w; edit_pos := e_pos;
                 _shift_view_to_cursor := _shift_view_to_cursor w;
                 fake_focus := fake_focus w;
                 autocomplete_text := autocomplete_text w |}) s.

(** [AutocompleteWidget.consume].  The suggestion is read once for the
    test and the new text, and again, after the [change] handlers have
    run, for the screen column the cursor is sent to; [len(None)] raises
    [TypeError]. *)
Definition consume (s : S) : outcome S bool :=
  let w := widget s in
  match autocomplete_text w with
  | Some a =>
      if str_bool a && (String.length (edit_text w) <? String.length a)%nat
      then
        let s1 := set_edit_text a s in
        match autocomplete_text (widget s1) with
        | None => Raise TypeError s1
        | Some a1 =>
            let s2 := move_cursor_to_coords (String.length a1) s1 in
            Return true (update_widget (set_autocomplete_text None) s2)
        end
      else Return false s
  | None => Return false s
  end.

(** [urwid.Edit.keypress] for a one-line edit box without highlight: a
    printable character is inserted at the cursor, [backspace] and
    [delete] remove the character before and at the cursor, the cursor
    keys move it; the key is returned when nothing was done with it. *)
Definition valid_char (key : string) : bool :=
  match key with
  | String c EmptyString => (32 <=? nat_of_ascii c)%nat
  | _ => false
  end.

Definition Edit_keypress (key : string) (s : S) : option string * S :=
  let w := widget s in
  let text := edit_text w in
  let pos := edit_pos w in
  if valid_char key then
    let s1 := set_edit_text (str_take pos text ++ key ++ str_drop pos text) s in
    (None, update_widget (set_edit_pos (pos + String.length key)) s1)
  else if String.eqb key "left" then
    if (pos =? 0)%nat then (Some key, s)
    else (None, update_widget (set_edit_pos (pos - 1)) s)
  else if String.eqb key "right" then
    if (String.length text <=? pos)%nat then (Some key, s)
    else (None, update_widget (set_edit_pos (pos + 1)) s)
  else if String.eqb key "backspace" then
    if (pos =? 0)%nat then (Some key, s)
    else
      let s1 := set_edit_text (str_take (pos - 1) text ++ str_drop pos text) s in
      (None, update_widget (set_edit_pos (pos - 1)) s1)
  else if String.eqb key "delete" then
    if (String.length text <=? pos)%nat then (Some key, s)
    else
      (None, set_edit_text (str_take pos text ++ str_drop (pos + 1) text) s)
  else if String.eqb key "home" then
    (None, update_widget (set_edit_pos 0) s)
  else if String.eqb key "end" then
    (None, update_widget (set_edit_pos (String.length text)) s)
  else (Some key, s).
End SignalHost.

(** The widget on its own, with no handler connected to [change]. *)
Definition Widget_consume : AutocompleteWidget -> outcome AutocompleteWidget bool :=
  consume (fun w => w) (fun w _ => w) (fun _ w => w).

(** ** [NoteWidget] and [NoteFilterListBox] *)

(** A row of the list.  [widget_id] is the identity of the Python object:
    every [NoteWidget(note)] call makes an object with a new one. *)
Record NoteWidget := mkNoteWidget {
  widget_id : nat;
  note : Note
}.

(** [list_walker] with its focus position, the widget cache [widgets] keyed
    by [note.abspath], and [created], the number of [NoteWidget] objects
    constructed so far. *)
Record NoteFilterListBox := mkListBox {
  lb_fake_focus : bool;
  list_walker : list NoteWidget;
  focus_position : nat;
  widgets : gmap string NoteWidget;
  created : nat
}.

Definition NoteFilterListBox_init : NoteFilterListBox :=
  {| lb_fake_focus := false; list_walker := []; focus_position := 0;
     widgets := ∅; created := 0 |}.

Definition set_lb_fake_focus (b : bool) (lb : NoteFilterListBox)
  : NoteFilterListBox :=
  {| lb_fake_focus := b; list_walker := list_walker lb;
     focus_position := focus_position lb; widgets := widgets lb;
     created := created lb |}.

Definition set_focus (i : nat) (lb : NoteFilterListBox) : NoteFilterListBox :=
  {| lb_fake_focus := lb_fake_focus lb; list_walker := list_walker lb;
     focus_position := i; widgets := widgets lb; created := created lb |}.

(** The state of the first loop of [NoteFilterListBox.filter]: the cache,
    the number of widgets made, and [matching_widgets]. *)
Definition filter_acc : Type := gmap string NoteWidget * nat * list NoteWidget.

(** One round of that loop. *)
Definition filter_step (acc : filter_acc) (n : Note) : filter_acc :=
  let '(ws, made, matching_widgets) := acc in
  match ws !! abspath n with
  | Some widget => (ws, made, (matching_widgets ++ [widget])%list)
  | None =>
      let widget := {| widget_id := made; note := n |} in
      (<[abspath n := widget]> ws, S made, (matching_widgets ++ [widget])%list)
  end.

(** [NoteFilterListBox.filter(matching_notes)]: after [del list_walker[:]]
    and the appends the walker holds [matching_widgets], focus on the first
    row. *)
Definition NoteFilterListBox_filter (matching_notes : list Note)
  (lb : NoteFilterListBox) : NoteFilterListBox :=
  let '(ws, made, matching_widgets) :=
    fold_left filter_step matching_notes (widgets lb, created lb, []) in
  {| lb_fake_focus := lb_fake_focus lb; list_walker := matching_widgets;
     focus_position := 0; widgets := ws; created := made |}.

(** Index of the first row whose note equals [n]. *)
Fixpoint index_of_note (n : Note) (l : list NoteWidget) : option nat :=
  match l with
  | [] => None
  | w :: l' =>
      if note_eqb (note w) n then Some 0%nat
      else option_map S (index_of_note n l')
  end.

(** [NoteFilterListBox.focus_note(note)] *)
Definition focus_note (n : Note) (lb : NoteFilterListBox) : NoteFilterListBox :=
  match index_of_note n (list_walker lb) with
  | Some i => set_focus i lb
  | None => lb
  end.

(** [self.focus]: the row in focus, [None] when the list is empty. *)
Definition focus (lb : NoteFilterListBox) : option NoteWidget :=
  list_walker lb !! focus_position lb.

(** [NoteFilterListBox.selected_note], that is [self.focus.note]. *)
Definition ListBox_selected_note {S : Type} (lb : NoteFilterListBox) (s : S)
  : outcome S Note :=
  match focus lb with
  | Some w => Return (note w) s
  | None => Raise AttributeError s
  end.

(** ** [MainFrame] *)

(** What [self.body] shows. *)
Inductive Body :=
| NoNotesPlaceholder
| PaddedListBox.

(** Calls that leave the module. *)
Inductive Effect :=
| Search (query : string)        (* [notebook.search(query)] *)
| AddNew (t : string)            (* [notebook.add_new(t)] *)
| System (cmd : string).         (* [system(cmd, loop)] *)

Record MainFrame := mkMainFrame {
  editor : string;
  notebook : PlainTextNoteBook;
  suppress_filter : bool;
  suppress_focus : bool;
  _selected_note : option Note;
  search_box : AutocompleteWidget;
  list_box : NoteFilterListBox;
  body : option Body;
  trace : list Effect
}.

Definition with_search_box (w : AutocompleteWidget) (st : MainFrame) : MainFrame :=
  {| editor := editor st; notebook := notebook st;
     suppress_filter := suppress_filter st; suppress_focus := suppress_focus st;
     _selected_note := _selected_note st; search_box := w;
     list_box := list_box st; body := body st; trace := trace st |}.

Definition with_list_box (lb : NoteFilterListBox) (st : MainFrame) : MainFrame :=
  {| editor := editor st; notebook := notebook st;
     suppress_filter := suppress_filter st; suppress_focus := suppress_focus st;
     _selected_note := _selected_note st; search_box := search_box st;
     list_box := lb; body := body st; trace := trace st |}.

Definition with_selected (n : option Note) (st : MainFrame) : MainFrame :=
  {| editor := editor st; notebook := notebook st;
     suppress_filter := suppress_filter st; suppress_focus := suppress_focus st;
     _selected_note := n; search_box := search_box st;
     list_box := list_box st; body := body st; trace := trace st |}.

Definition with_flags (no_filter no_focus : bool) (st : MainFrame) : MainFrame :=
  {| editor := editor st; notebook := notebook st;
     suppress_filter := no_filter; suppress_focus := no_focus;
     _selected_note := _selected_note st; search_box := search_box st;
     list_box := list_box st; body := body st; trace := trace st |}.

Definition with_body (b : Body) (st : MainFrame) : MainFrame :=
  {| editor := editor st; notebook := notebook st;
     suppress_filter := suppress_filter st; suppress_focus := suppress_focus st;
     _selected_note := _selected_note st; search_box := search_box st;
     list_box := list_box st; body := Some b; trace := trace st |}.

Definition with_notebook (nb : PlainTextNoteBook) (st : MainFrame) : MainFrame :=
  {| editor := editor st; notebook := nb;
     suppress_filter := suppress_filter st; suppress_focus := suppress_focus st;
     _selected_note := _selected_note st; search_box := search_box st;
     list_box := list_box st; body := body st; trace := trace st |}.

Definition log (e : Effect) (st : MainFrame) : MainFrame :=
  {| editor := editor st; notebook := notebook st;
     suppress_filter := suppress_filter st; suppress_focus := suppress_focus st;
     _selected_note := _selected_note st; search_box := search_box st;
     list_box := list_box st; body := body st; trace := (trace st ++ [e])%list |}.

(** The setter of [MainFrame.selected_note]. *)
Definition set_selected_note (n : option Note) (st : MainFrame) : MainFrame :=
  if suppress_focus st then st
  else
    match n with
    | Some nt =>
        let st := with_search_box
                    (set_autocomplete_text (Some (title nt)) (search_box st)) st in
        let st := with_list_box (set_lb_fake_focus true (list_box st)) st in
        let st := with_list_box (focus_note nt (list_box st)) st in
        with_selected (Some nt) st
    | None =>
        let st := with_search_box
                    (set_autocomplete_text None (search_box st)) st in
        let st := with_list_box (set_lb_fake_focus false (list_box st)) st in
        with_selected None st
    end.

(** The notes the list shows for [query]: [notebook.search(query)] sorted by
    [mtime], newest first. *)
Definition matching_notes (nb : PlainTextNoteBook) (query : string) : list Note :=
  sort_by_mtime_desc (search nb query).

(** The notes whose title the search box can complete [query] to. *)
Definition autocompletable_matches (nb : PlainTextNoteBook) (query : string)
  : list Note :=
  if str_bool query then
    List.filter (fun n => starts_ci (title n) query) (matching_notes nb query)
  else [].

(** [MainFrame.filter(query)] up to the point where the list box shows the
    matching notes: the state in which the selection is then set. *)
Definition filter_list (query : string) (st : MainFrame) : MainFrame :=
  let st := with_body (if (List.length (notes (notebook st)) =? 0)%nat
                       then NoNotesPlaceholder else PaddedListBox) st in
  let st := log (Search query) st in
  let matching := matching_notes (notebook st) query in
  with_list_box (NoteFilterListBox_filter matching (list_box st)) st.

(** [MainFrame.filter(query)] *)
Definition filter (query : string) (st : MainFrame) : MainFrame :=
  if suppress_filter st then st
  else
    set_selected_note (head (autocompletable_matches (notebook st) query))
      (filter_list query st).

(** [MainFrame.on_search_box_changed], the handler of the search box's
    [change] signal, and [MainFrame.on_list_box_changed]. *)
Definition on_search_box_changed (new_edit_text : string) (st : MainFrame)
  : MainFrame :=
  filter new_edit_text st.

Definition on_list_box_changed (n : Note) (st : MainFrame) : MainFrame :=
  set_selected_note (Some n) st.

(** [MainFrame.__init__]: both flags off, nothing selected, the two widgets
    new, and one filter pass on the empty query. *)
Definition MainFrame_init (ed : string) (nb : PlainTextNoteBook) : MainFrame :=
  filter (edit_text AutocompleteWidget_init)
    {| editor := ed; notebook := nb;
       suppress_filter := false; suppress_focus := false;
       _selected_note := None;
       search_box := AutocompleteWidget_init;
       list_box := NoteFilterListBox_init;
       body := None; trace := [] |}.

(** The search box inside the frame: its [change] signal is connected to
    [on_search_box_changed]. *)
Definition search_box_set_edit_text : string -> MainFrame -> MainFrame :=
  set_edit_text search_box with_search_box on_search_box_changed.

Definition search_box_consume : MainFrame -> outcome MainFrame bool :=
  consume search_box with_search_box on_search_box_changed.

Definition search_box_keypress : string -> MainFrame -> option string * MainFrame :=
  Edit_keypress search_box with_search_box on_search_box_changed.

(** [system(cmd, loop)]: the editor runs outside; the call is logged. *)
Definition system (cmd : string) (st : MainFrame) : MainFrame :=
  log (System cmd) st.

(** [MainFrame.render]: the frame draws its header, the search box. *)
Definition MainFrame_render (st : MainFrame) : MainFrame :=
  with_search_box (AutocompleteWidget_render (search_box st)) st.

Definition key_in (key : string) (keys : list string) : bool :=
  existsb (String.eqb key) keys.

Section Keypress.
(** [urwid.ListBox.keypress] on a list that is not empty: where the focus
    goes depends on the rendered rows, which is the terminal library's
    business; it is taken as given.  The returned position is kept inside
    the list. *)
Variable ListBox_move :
  nat * nat -> string -> list NoteWidget -> nat -> option string * nat.

(** [urwid.ListBox.keypress]: an empty list box returns the key at once. *)
Definition ListBox_keypress (size : nat * nat) (key : string)
  (lb : NoteFilterListBox) : option string * NoteFilterListBox :=
  match focus lb with
  | None => (Some key, lb)
  | Some _ =>
      let '(result, pos) :=
        ListBox_move size key (list_walker lb) (focus_position lb) in
      (result, set_focus (Nat.min pos (List.length (list_walker lb) - 1)) lb)
  end.

(** [NoteFilterListBox.keypress], with [on_changed] bound to
    [MainFrame.on_list_box_changed]. *)
Definition NoteFilterListBox_keypress (size : nat * nat) (key : string)
  (st : MainFrame) : outcome MainFrame (option string) :=
  let '(result, lb) := ListBox_keypress size key (list_box st) in
  let st := with_list_box lb st in
  bind (ListBox_selected_note (list_box st) st)
       (fun n st => Return result (on_list_box_changed n st)).

(** [MainFrame.keypress(size, key)] *)
Definition keypress (size : nat * nat) (key : string) (st : MainFrame)
  : outcome MainFrame (option string) :=
  let st := with_flags false false st in
  if key_in key ["esc"; "ctrl d"] then
    match _selected_note st with
    | Some _ => Return None (set_selected_note None st)
    | None =>
        if str_bool (edit_text (search_box st))
        then Return None (search_box_set_edit_text "" st)
        else Return None st
    end
  else if key_in key ["enter"] then
    let st :=
      match _selected_note st with
      | Some sel => system (editor st ++ " " ++ quote (abspath sel)) st
      | None =>
          let typed := edit_text (search_box st) in
          if str_bool typed then
            match add_new (notebook st) typed with
            | Added n nb' =>
                let st := with_notebook nb' (log (AddNew typed) st) in
                system (editor st ++ " " ++ quote (abspath n)) st
            | NoteAlreadyExistsError =>
                let st := log (AddNew typed) st in
                system (editor st ++ " " ++
                        quote (typed ++ extension (notebook st))) st
            | InvalidNoteTitleError => log (AddNew typed) st
            end
          else st
      end in
    let st := with_flags (suppress_filter st) true st in
    Return None (filter (edit_text (search_box st)) st)
  else if key_in key ["ctrl x"] then
    Raise ExitMainLoop st
  else if match _selected_note st with Some _ => true | None => false end
          && key_in key ["tab"; "left"; "right"] then
    bind (search_box_consume st)
         (fun consumed st =>
            if consumed then Return None st
            else let '(r, st) := search_box_keypress key st in Return r st)
  else if key_in key ["down"] then
    if negb (lb_fake_focus (list_box st)) then
      let st := with_list_box (set_lb_fake_focus true (list_box st)) st in
      bind (ListBox_selected_note (list_box st) st)
           (fun n st => Return None (on_list_box_changed n st))
    else NoteFilterListBox_keypress size key st
  else if key_in key ["up"; "page up"; "page down"] then
    NoteFilterListBox_keypress size key st
  else if key_in key ["backspace"] then
    let consume :=
      match _selected_note st with
      | Some sel =>
          if String.eqb (edit_text (search_box st)) "" then true
          else negb (starts_ci (title sel) (edit_text (search_box st)))
      | None => false
      end in
    bind (if consume then search_box_consume st
          else Return false (set_selected_note None st))
         (fun _ st =>
            let st := with_flags (suppress_filter st) true st in
            let '(r, st) := search_box_keypress key st in Return r st)
  else
    let '(r, st) := search_box_keypress key st in Return r st.
End Keypress.

(** * Statements *)

(** [newer_first a b]: [a] may stand before [b] in the list. *)
Definition newer_first (a b : Note) : Prop := (mtime b <= mtime a)%Z.

(** The list box rows as notes: what the user sees, top to bottom. *)
Definition display_list (st : MainFrame) : list Note :=
  map note (list_walker (list_box st)).

(** Every cached row still carries the notebook's note of its path, and no
    two notes of the notebook share a path. *)
Definition cache_agrees (st : MainFrame) : Prop :=
  forall p w n,
    widgets (list_box st) !! p = Some w ->
    In n (notes (notebook st)) -> abspath n = p -> note w = n.

Definition paths_unique (nb : PlainTextNoteBook) : Prop :=
  forall a b, In a (notes nb) -> In b (notes nb) ->
    abspath a = abspath b -> a = b.

(** What a filter pass on [q] is said to do to the selection: with a note
    whose title starts with [q], a newest such note is selected and
    suggested; with none, the selection is cleared. *)
Definition autocomplete_claim (q : string) (st : MainFrame) : Prop :=
  let st' := filter q st in
  let nb := notebook st in
  ((exists n, In n (notes nb) /\ starts_ci (title n) q = true) ->
   exists m,
     _selected_note st' = Some m /\
     autocomplete_text (search_box st') = Some (title m) /\
     In m (notes nb) /\ starts_ci (title m) q = true /\
     forall n, In n (notes nb) -> starts_ci (title n) q = true ->
               (mtime n <= mtime m)%Z) /\
  ((forall n, In n (notes nb) -> starts_ci (title n) q = false) ->
   _selected_note st' = None /\
   autocomplete_text (search_box st') = None).

(** A run of list box filter calls, one per list of matching notes. *)
Definition filter_calls (ls : list (list Note)) (lb : NoteFilterListBox)
  : NoteFilterListBox :=
  fold_left (fun lb l => NoteFilterListBox_filter l lb) ls lb.

(** The lengths of the styled ranges of the search box add up to the length
    of its text. *)
Definition spans_claim (w : AutocompleteWidget) : Prop :=
  spans_length (snd (get_text w)) = len (fst (get_text w)).

(** What a change of the typed text to [text] is said to do: the filter
    flag is on while the selection is set, and the notebook is searched once. *)
Definition reentrancy_claim (text : string) (st : MainFrame) : Prop :=
  suppress_filter (filter_list text st) = true /\
  trace (search_box_set_edit_text text st) = (trace st ++ [Search text])%list.

(** The typed text after a character key. *)
Definition typed_after (key : string) (w : AutocompleteWidget) : string :=
  str_take (edit_pos w) (edit_text w) ++ key ++ str_drop (edit_pos w) (edit_text w).

(** The typed text after [backspace] in the edit box: the character before
    the cursor is gone (none when the cursor is at the start). *)
Definition backspaced (w : AutocompleteWidget) : string :=
  str_take (edit_pos w - 1) (edit_text w) ++ str_drop (edit_pos w) (edit_text w).

(** What [backspace] is said to do when the search box shows the title of
    the selected note instead of the typed text: the selection goes, the
    typed text stays. *)
Definition backspace_clear_claim mv (size : nat * nat) (st : MainFrame) : Prop :=
  forall n,
    _selected_note st = Some n ->
    edit_text (search_box st) = "" \/
    starts_ci (title n) (edit_text (search_box st)) = false ->
    exists r st',
      keypress mv size "backspace" st = Return r st' /\
      _selected_note st' = None /\
      edit_text (search_box st') = edit_text (search_box st).

(** What [backspace] is said to do when the typed text is the start of the
    selected note's title: one character goes, and the note stays selected
    as long as the list still shows it. *)
Definition backspace_keep_claim mv (size : nat * nat) (st : MainFrame) : Prop :=
  forall n,
    _selected_note st = Some n ->
    edit_text (search_box st) <> "" ->
    starts_ci (title n) (edit_text (search_box st)) = true ->
    exists r st',
      keypress mv size "backspace" st = Return r st' /\
      edit_text (search_box st') = backspaced (search_box st) /\
      (In n (display_list st') -> _selected_note st' = Some n).

(** ** The rest of the list box and of the event loop *)

Section Mouse.
(** [urwid.ListBox.mouse_event] on a list that is not empty: which row the
    pointer hits depends on the rendered rows and is taken as given, like
    the cursor movement above. *)
Variable ListBox_click :
  nat * nat -> string -> nat -> nat -> nat -> list NoteWidget -> nat -> bool * nat.

(** [urwid.ListBox.mouse_event]: with nothing visible it returns [False]. *)
Definition ListBox_mouse_event (size : nat * nat) (event : string)
  (button col row : nat) (lb : NoteFilterListBox) : bool * NoteFilterListBox :=
  match focus lb with
  | None => (false, lb)
  | Some _ =>
      let '(result, pos) :=
        ListBox_click size event button col row
                      (list_walker lb) (focus_position lb) in
      (result, set_focus (Nat.min pos (List.length (list_walker lb) - 1)) lb)
  end.

(** [NoteFilterListBox.mouse_event], with [on_changed] bound to
    [MainFrame.on_list_box_changed]. *)
Definition NoteFilterListBox_mouse_event (size : nat * nat) (event : string)
  (button col row : nat) (st : MainFrame) : outcome MainFrame bool :=
  let '(result, lb) :=
    ListBox_mouse_event size event button col row (list_box st) in
  let st := with_list_box lb st in
  bind (ListBox_selected_note (list_box st) st)
       (fun n st => Return result (on_list_box_changed n st)).
End Mouse.


(** The main loop feeding keys to [MainFrame.keypress] one after the other;
    a key that raises ends the run. *)
Definition keypresses mv (size : nat * nat) (keys : list string) (st : MainFrame)
  : outcome MainFrame (option string) :=
  fold_left (fun o key => bind o (fun _ s => keypress mv size key s))
            keys (Return None st).

(** What reaches the frame from the main loop: a key, or the request to
    draw the screen, which the loop makes whenever it is idle. *)
Inductive event :=
| Key (key : string)
| Draw.

Definition handle_event mv (size : nat * nat) (e : event) (st : MainFrame)
  : outcome MainFrame (option string) :=
  match e with
  | Key key => keypress mv size key st
  | Draw => Return None (MainFrame_render st)
  end.

(** A session: keys and redraws in any order; a key that raises ends it. *)
Definition session mv (size : nat * nat) (events : list event) (st : MainFrame)
  : outcome MainFrame (option string) :=
  fold_left (fun o e => bind o (fun _ s => handle_event mv size e s))
            events (Return None st).

(** A suggestion, when there is one, is the title of the selected note. *)
Definition suggestion_ok (st : MainFrame) : Prop :=
  forall a, autocomplete_text (search_box st) = Some a ->
            exists n, _selected_note st = Some n /\ title n = a.

(** [quiet st0 st]: between [st0] and [st] the notebook and the editor
    command are the same and the only calls that left the module are
    notebook searches. *)
Definition quiet (st0 st : MainFrame) : Prop :=
  notebook st = notebook st0 /\
  editor st = editor st0 /\
  exists queries, trace st = (trace st0 ++ map Search queries)%list.

(** Every cached widget is filed under the path of its own note, was made
    by this list box, and no two entries hold the same widget object. *)
Definition cache_wf (lb : NoteFilterListBox) : Prop :=
  (forall p w, widgets lb !! p = Some w ->
               abspath (note w) = p /\ (widget_id w < created lb)%nat) /\
  (forall p q w w', widgets lb !! p = Some w -> widgets lb !! q = Some w' ->
                    widget_id w = widget_id w' -> p = q).

(** The position of the first row of [l] whose note has the path of [n]
    is [i]. *)
Definition first_row_of (n : Note) (l : list NoteWidget) (i : nat) : Prop :=
  (exists w, l !! i = Some w /\ abspath (note w) = abspath n) /\
  (forall j w, (j < i)%nat -> l !! j = Some w -> abspath (note w) <> abspath n).

(** [row_selected w st st']: going from [st] to [st'] selected the note of
    row [w] of the list and did nothing else: its title is suggested, the
    list is marked as focused, and the typed text, the cursor, the rows, the
    notebook and the trace are the same. *)
Definition row_selected (w : NoteWidget) (st st' : MainFrame) : Prop :=
  In w (list_walker (list_box st)) /\
  _selected_note st' = Some (note w) /\
  autocomplete_text (search_box st') = Some (title (note w)) /\
  edit_text (search_box st') = edit_text (search_box st) /\
  edit_pos (search_box st') = edit_pos (search_box st) /\
  list_walker (list_box st') = list_walker (list_box st) /\
  lb_fake_focus (list_box st') = true /\
  notebook st' = notebook st /\
  trace st' = trace st.

(** The selected note, the notes of the rows and the notes of the cached
    widgets are notes of the notebook. *)
Definition notes_known (st : MainFrame) : Prop :=
  (forall n, _selected_note st = Some n -> In n (notes (notebook st))) /\
  (forall w, In w (list_walker (list_box st)) ->
             In (note w) (notes (notebook st))) /\
  (forall p w, widgets (list_box st) !! p = Some w ->
               In (note w) (notes (notebook st))).

(** [raises e o]: the outcome [o] is the exception [e]. *)
Definition raises {S A : Type} (e : exn) (o : outcome S A) : Prop :=
  exists s, o = Raise e s.

(** [n], when it is a note, is a note of the notebook of [st]. *)
Definition note_of_notebook (n : option Note) (st : MainFrame) : Prop :=
  forall m, n = Some m -> In m (notes (notebook st)).

End UnicodeTables.

(** * Examples *)

(** ** Tables for plain ASCII text

    [A]-[Z] fold to [a]-[z] and every character takes one column, as
    Python and urwid have it for printable ASCII. *)

Definition is_upper (c : ascii) : bool :=
  (65 <=? nat_of_ascii c)%nat && (nat_of_ascii c <=? 90)%nat.

Definition lower_char (c : ascii) : ascii :=
  if is_upper c then ascii_of_nat (nat_of_ascii c + 32) else c.

Fixpoint ascii_lower (s : string) : string :=
  match s with
  | EmptyString => EmptyString
  | String c s' => String (lower_char c) (ascii_lower s')
  end.

#[export] Instance ascii_tables : Tables :=
  {| lower := ascii_lower; char_width := fun _ => 1%nat; lower_empty := eq_refl |}.

(** ** Tables with double-width characters

    The characters from 128 on stand for characters that take two columns,
    such as CJK ideographs. *)
Definition wide_tables : Tables :=
  {| lower := ascii_lower;
     char_width := fun c => if (128 <=? nat_of_ascii c)%nat then 2%nat else 1%nat;
     lower_empty := eq_refl |}.

(** A title of three double-width characters, and a search box, drawn
    before, in which nothing is typed and that title is suggested. *)
Definition wide_title : string :=
  String (ascii_of_nat 230) (String (ascii_of_nat 231)
    (String (ascii_of_nat 232) EmptyString)).

Definition wide_box : AutocompleteWidget :=
  {| edit_text := ""; edit_pos := 0;
     _shift_view_to_cursor := true; fake_focus := true;
     autocomplete_text := Some wide_title |}.

(** A list box that never moves its focus; used to run examples. *)
Definition still : nat * nat -> string -> list NoteWidget -> nat -> option string * nat :=
  fun _ key _ pos => (Some key, pos).


(** ** Example data: the notes of the spec's scenarios *)

Definition grocery_list : Note :=
  {| abspath := "/notes/Grocery List.txt"; title := "Grocery List"; mtime := 10 |}.

Definition groceries_budget : Note :=
  {| abspath := "/notes/Groceries Budget.txt"; title := "Groceries Budget";
     mtime := 5 |}.

Definition example_notebook : PlainTextNoteBook :=
  {| notes_dir := "/notes"; extension := ".txt";
     notes := [groceries_budget; grocery_list]; now := 20 |}.

Definition empty_notebook : PlainTextNoteBook :=
  {| notes_dir := "/notes"; extension := ".txt"; notes := []; now := 20 |}.

Definition example_frame : MainFrame := MainFrame_init "vi" example_notebook.

Definition empty_frame : MainFrame := MainFrame_init "vi" empty_notebook.

(** A run of key presses on an 80x24 screen with a list that stays put;
    the screen has been drawn when the first key arrives. *)
Definition press (keys : list string) (st : MainFrame)
  : outcome MainFrame (option string) :=
  fold_left (fun o key => bind o (fun _ s => keypress still (80, 24)%nat key s))
            keys (Return None (MainFrame_render st)).

(** Scenario C: ["Gro"] typed, "Grocery List" selected. *)
Definition scenario_c : MainFrame := state_of (press ["G"; "r"; "o"] example_frame).

(** Nothing typed, "Grocery List" selected with the [down] key. *)
Definition browsing : MainFrame := state_of (press ["down"] example_frame).

(** "Grocery List" typed in full (completed with [tab]) and the selection
    dismissed with [esc]: the title of an existing note is typed and no note
    is selected. *)
Definition existing_title_typed : MainFrame :=
  state_of (press ["G"; "r"; "o"; "tab"; "esc"] example_frame).

(** Scenario B: ["xyz"] typed, no note matches, the list is empty. *)
Definition scenario_b : MainFrame := state_of (press ["x"; "y"; "z"] example_frame).

(** A notebook whose one note has the wide title, and the frame on a
    terminal that shows its characters two columns wide: the screen drawn,
    nothing typed, the note selected with the [down] key. *)
Definition wide_note : Note :=
  {| abspath := "/notes/" ++ wide_title ++ ".txt"; title := wide_title;
     mtime := 10 |}.

Definition wide_notebook : PlainTextNoteBook :=
  {| notes_dir := "/notes"; extension := ".txt"; notes := [wide_note]; now := 20 |}.

Definition wide_browsing : MainFrame :=
  state_of (keypress (T := wide_tables) still (80, 24)%nat "down"
              (MainFrame_render (MainFrame_init (T := wide_tables) "vi" wide_notebook))).

(** * Properties *)

(** ** Strings *)

Lemma str_bool_true (s : string) : str_bool s = true <-> s <> "".
Proof.
  unfold str_bool. destruct (String.eqb_spec s ""); simpl; split; congruence.
Qed.

Lemma str_bool_false (s : string) : str_bool s = false <-> s = "".
Proof.
  unfold str_bool. destruct (String.eqb_spec s ""); simpl; split; congruence.
Qed.

Lemma startswith_refl (s : string) : startswith s s = true.
Proof.
  induction s as [|c s IH]; simpl; [reflexivity|].
  rewrite Ascii.eqb_refl. exact IH.
Qed.

Lemma startswith_length (s p : string) :
  startswith s p = true -> (String.length p <= String.length s)%nat.
Proof.
  revert s. induction p as [|a p IH]; intros [|b s]; simpl; try lia; try discriminate.
  intros H. apply andb_true_iff in H as [_ H]. apply IH in H. lia.
Qed.

Lemma startswith_str_in (s p : string) :
  startswith s p = true -> str_in p s = true.
Proof. intros H. destruct s; cbn [str_in]; rewrite H; reflexivity. Qed.

Lemma starts_ci_refl `{T : Tables} (t : string) : starts_ci t t = true.
Proof. apply startswith_refl. Qed.

Lemma append_empty (s : string) : s ++ "" = s.
Proof.
  induction s as [|c s IH]; [reflexivity|].
  change (String c (s ++ "") = String c s). congruence.
Qed.

Lemma append_length (a b : string) :
  String.length (a ++ b) = (String.length a + String.length b)%nat.
Proof.
  induction a as [|c a IH]; [reflexivity|].
  change (S (String.length (a ++ b)) = S (String.length a + String.length b)).
  congruence.
Qed.

Lemma str_drop_length (n : nat) (s : string) :
  String.length (str_drop n s) = (String.length s - n)%nat.
Proof.
  revert s. induction n as [|n IH]; intros [|c s]; simpl; try reflexivity.
  apply IH.
Qed.

Lemma str_drop_all (s : string) : str_drop (String.length s) s = "".
Proof. induction s as [|c s IH]; simpl; congruence. Qed.

Lemma str_take_length (n : nat) (s : string) :
  String.length (str_take n s) = Nat.min n (String.length s).
Proof.
  revert s. induction n as [|n IH]; intros [|c s]; simpl; try reflexivity.
  rewrite IH. reflexivity.
Qed.

Lemma str_take_append (a b : string) : str_take (String.length a) (a ++ b) = a.
Proof.
  induction a as [|c a IH]; [destruct b; reflexivity|].
  change (String c (str_take (String.length a) (a ++ b)) = String c a).
  congruence.
Qed.

Lemma str_drop_append (a b : string) : str_drop (String.length a) (a ++ b) = b.
Proof. induction a as [|c a IH]; [destruct b; reflexivity|exact IH]. Qed.

(** ** Screen columns *)

Lemma calc_text_pos_le `{T : Tables} (line : string) (col sc : nat) :
  (calc_text_pos line col sc <= String.length line)%nat.
Proof.
  revert sc. induction line as [|c line IH]; intros sc;
    cbn [calc_text_pos String.length]; [lia|].
  destruct (col <? char_width c + sc)%nat; [lia|].
  specialize (IH (sc + char_width c)%nat). lia.
Qed.

(** A column at or beyond the width of the line is the end of the line. *)
Lemma calc_text_pos_end `{T : Tables} (line : string) (col sc : nat) :
  (sc + calc_width line <= col)%nat ->
  calc_text_pos line col sc = String.length line.
Proof.
  revert sc. induction line as [|c line IH]; intros sc Hw;
    cbn [calc_text_pos calc_width String.length] in *; [reflexivity|].
  destruct (Nat.ltb_spec col (char_width c + sc)); [lia|].
  rewrite IH by lia. reflexivity.
Qed.

(** ** The sort *)

Lemma insert_desc_Permutation (n : Note) (l : list Note) :
  Permutation (insert_desc n l) (n :: l).
Proof.
  induction l as [|m l IH]; simpl; [reflexivity|].
  destruct (mtime m <=? mtime n)%Z; [reflexivity|].
  rewrite IH. apply perm_swap.
Qed.

Lemma sort_by_mtime_desc_Permutation (l : list Note) :
  Permutation (sort_by_mtime_desc l) l.
Proof.
  induction l as [|n l IH]; simpl; [reflexivity|].
  rewrite insert_desc_Permutation. apply perm_skip, IH.
Qed.

Lemma sort_by_mtime_desc_In (l : list Note) (n : Note) :
  In n (sort_by_mtime_desc l) <-> In n l.
Proof.
  split; apply Permutation_in;
    [|symmetry]; apply sort_by_mtime_desc_Permutation.
Qed.

Lemma insert_desc_Sorted (n : Note) (l : list Note) :
  Sorted newer_first l -> Sorted newer_first (insert_desc n l).
Proof.
  induction l as [|m l IH]; simpl; intros Hs.
  - repeat constructor.
  - destruct (Z.leb_spec (mtime m) (mtime n)) as [Hle|Hgt].
    + constructor; [exact Hs|]. constructor. exact Hle.
    + inversion Hs as [|? ? Hs' Hhd]; subst.
      constructor; [apply IH, Hs'|].
      destruct l as [|k l]; simpl.
      * constructor. unfold newer_first. lia.
      * destruct (mtime k <=? mtime n)%Z; constructor.
        -- unfold newer_first. lia.
        -- inversion Hhd; subst. assumption.
Qed.

Lemma sort_by_mtime_desc_Sorted (l : list Note) :
  Sorted newer_first (sort_by_mtime_desc l).
Proof.
  induction l as [|n l IH]; simpl; [constructor|].
  apply insert_desc_Sorted, IH.
Qed.

Lemma newer_first_trans : Relations_1.Transitive newer_first.
Proof. intros a b c. unfold newer_first. lia. Qed.

Lemma sort_by_mtime_desc_StronglySorted (l : list Note) :
  StronglySorted newer_first (sort_by_mtime_desc l).
Proof.
  apply Sorted_StronglySorted; [exact newer_first_trans|].
  apply sort_by_mtime_desc_Sorted.
Qed.

(** Notes of one and the same [mtime] keep their order. *)
Lemma insert_desc_stable (t : Z) (n : Note) (l : list Note) :
  List.filter (fun x => (mtime x =? t)%Z) (insert_desc n l) =
  List.filter (fun x => (mtime x =? t)%Z) (n :: l).
Proof.
  induction l as [|m l IH]; [reflexivity|].
  cbn [insert_desc].
  destruct (Z.leb_spec (mtime m) (mtime n)) as [Hle|Hgt]; [reflexivity|].
  cbn [List.filter] in *.
  destruct (Z.eqb_spec (mtime m) t) as [Hm|Hm];
    destruct (Z.eqb_spec (mtime n) t) as [Hn|Hn]; try lia;
    rewrite IH; reflexivity.
Qed.

Lemma sort_by_mtime_desc_stable (t : Z) (l : list Note) :
  List.filter (fun x => (mtime x =? t)%Z) (sort_by_mtime_desc l) =
  List.filter (fun x => (mtime x =? t)%Z) l.
Proof.
  induction l as [|n l IH]; [reflexivity|].
  cbn [sort_by_mtime_desc foldr]. rewrite insert_desc_stable.
  cbn [List.filter]. fold (sort_by_mtime_desc l). rewrite IH. reflexivity.
Qed.

(** ** The first match of a sorted list *)

Lemma head_filter_Some (P : Note -> bool) (l : list Note) :
  (exists n, In n l /\ P n = true) -> exists m, head (List.filter P l) = Some m.
Proof.
  induction l as [|x l IH]; intros [n [Hin HP]]; [destruct Hin|].
  simpl. destruct (P x) eqn:HPx; [eexists; reflexivity|].
  apply IH. destruct Hin as [->|Hin]; [congruence|eauto].
Qed.

Lemma head_filter_None (P : Note -> bool) (l : list Note) :
  (forall n, In n l -> P n = false) -> head (List.filter P l) = None.
Proof.
  induction l as [|x l IH]; intros H; [reflexivity|].
  simpl. rewrite (H x) by (left; reflexivity).
  apply IH. intros n Hn. apply H. right. exact Hn.
Qed.

Lemma head_filter_newest (P : Note -> bool) (l : list Note) (m : Note) :
  StronglySorted newer_first l ->
  head (List.filter P l) = Some m ->
  In m l /\ P m = true /\
  forall n, In n l -> P n = true -> (mtime n <= mtime m)%Z.
Proof.
  induction 1 as [|x l Hs IH Hall]; simpl; [discriminate|].
  destruct (P x) eqn:HPx; simpl.
  - intros [= <-]. repeat split; auto.
    intros n [<-|Hn] _; [lia|].
    exact (proj1 (List.Forall_forall _ _) Hall n Hn).
  - intros Hh. destruct (IH Hh) as (Hin & HPm & Hmax).
    repeat split; auto.
    intros n [<-|Hn] HPn; [congruence|auto].
Qed.

(** ** The filter pass *)

Lemma In_matching_notes `{T : Tables} (nb : PlainTextNoteBook) (q : string) (n : Note) :
  In n (matching_notes nb q) <->
  In n (notes nb) /\ str_in (lower q) (lower (title n)) = true.
Proof.
  unfold matching_notes, search.
  rewrite sort_by_mtime_desc_In, filter_In. reflexivity.
Qed.

Lemma prefix_match_matches `{T : Tables} (nb : PlainTextNoteBook) (q : string) (n : Note) :
  In n (notes nb) -> starts_ci (title n) q = true -> In n (matching_notes nb q).
Proof.
  intros Hin Hs. apply In_matching_notes. split; [exact Hin|].
  apply startswith_str_in, Hs.
Qed.

Lemma set_selected_note_suppressed (n : option Note) (st : MainFrame) :
  suppress_focus st = true -> set_selected_note n st = st.
Proof. unfold set_selected_note. intros ->. reflexivity. Qed.

Lemma set_selected_note_selected (n : option Note) (st : MainFrame) :
  suppress_focus st = false ->
  _selected_note (set_selected_note n st) = n /\
  autocomplete_text (search_box (set_selected_note n st)) = option_map title n.
Proof.
  unfold set_selected_note. intros ->. destruct n; split; reflexivity.
Qed.

Lemma filter_selection `{T : Tables} (q : string) (st : MainFrame) :
  suppress_filter st = false -> suppress_focus st = false ->
  _selected_note (filter q st) = head (autocompletable_matches (notebook st) q) /\
  autocomplete_text (search_box (filter q st)) =
    option_map title (head (autocompletable_matches (notebook st) q)).
Proof.
  intros Hf Hs. unfold filter. rewrite Hf.
  apply set_selected_note_selected. exact Hs.
Qed.

Lemma filter_prefix_match `{T : Tables} (q : string) (st : MainFrame) :
  suppress_filter st = false -> suppress_focus st = false ->
  q <> "" -> autocomplete_claim q st.
Proof.
  intros Hf Hs Hq.
  destruct (filter_selection q st Hf Hs) as [Hsel Hauto].
  apply str_bool_true in Hq.
  unfold autocomplete_claim. cbv zeta. rewrite Hsel, Hauto.
  unfold autocompletable_matches. rewrite Hq. split.
  - intros [n [Hin Hn]].
    destruct (head_filter_Some (fun n => starts_ci (title n) q)
                (matching_notes (notebook st) q)) as [m Hm].
    { exists n. split; [apply prefix_match_matches|]; assumption. }
    destruct (head_filter_newest _ _ _
                (sort_by_mtime_desc_StronglySorted _) Hm) as (Hmin & HPm & Hmax).
    exists m. rewrite Hm. repeat split; auto.
    + apply In_matching_notes in Hmin. tauto.
    + intros k Hk Hks. apply Hmax; [apply prefix_match_matches|]; assumption.
  - intros Hnone. rewrite head_filter_None; [split; reflexivity|].
    intros n Hn. apply Hnone. apply In_matching_notes in Hn. tauto.
Qed.

(** C1, amended.  For a query that is not empty, a filter pass with both
    flags off selects a most recently modified note among those whose title
    starts with the query, ignoring case, and suggests its title; when no
    title starts with the query the selection and the suggestion are
    cleared.  For the empty query they are always cleared. *)
Theorem filter_autocomplete `{T : Tables} (q : string) (st : MainFrame) :
  suppress_filter st = false -> suppress_focus st = false ->
  (q <> "" -> autocomplete_claim q st) /\
  (q = "" ->
   _selected_note (filter q st) = None /\
   autocomplete_text (search_box (filter q st)) = None).
Proof.
  intros Hf Hs. split.
  - apply filter_prefix_match; assumption.
  - intros ->. destruct (filter_selection "" st Hf Hs) as [Hsel Hauto].
    rewrite Hsel, Hauto. split; reflexivity.
Qed.

Lemma filter_autocomplete_witness : autocomplete_claim "Gro" example_frame.
Proof.
  destruct (filter_autocomplete "Gro" example_frame eq_refl eq_refl) as [H _].
  apply H. discriminate.
Defined.

(** C1 as stated fails on the empty query: every title starts with it, yet
    the filter pass selects nothing. *)
Lemma filter_autocomplete_empty_query : ~ autocomplete_claim "" example_frame.
Proof.
  intros [H _].
  destruct H as (m & Hsel & _).
  - exists grocery_list. split; [right; left; reflexivity|reflexivity].
  - discriminate Hsel.
Qed.

(** ** The widget cache *)

(** What the first loop of [NoteFilterListBox.filter] leaves behind: the
    old cache entries untouched, one row per note, each row the cache entry
    of its note, one new widget per new entry, and every entry either old
    or made for a note of the list. *)
Lemma filter_loop (l : list Note) :
  forall (ws : gmap string NoteWidget) (made : nat) (acc : list NoteWidget),
  exists ws' made' rows,
    fold_left filter_step l (ws, made, acc) = (ws', made', (acc ++ rows)%list) /\
    ws ⊆ ws' /\
    Forall2 (fun w n => ws' !! abspath n = Some w) rows l /\
    (made' + size ws = made + size ws')%nat /\
    (made <= made')%nat /\
    (forall p w, ws' !! p = Some w ->
       ws !! p = Some w \/
       (ws !! p = None /\ exists n, In n l /\ abspath n = p /\ note w = n)).
Proof.
  induction l as [|n l IH]; intros ws made acc.
  - exists ws, made, []. rewrite app_nil_r. repeat split; auto.
  - cbn [fold_left]. unfold filter_step at 2.
    destruct (ws !! abspath n) as [w|] eqn:Hlook.
    + destruct (IH ws made (acc ++ [w])%list)
        as (ws' & made' & rows & Heq & Hsub & Hrows & Hcount & Hle & Hprov).
      exists ws', made', (w :: rows). rewrite Heq, <- app_assoc.
      repeat split; auto.
      * constructor; [|exact Hrows]. eapply lookup_weaken; eauto.
      * intros p w' Hw'. destruct (Hprov p w' Hw') as [?|(? & k & ? & ? & ?)]; auto.
        right. split; auto. exists k. repeat split; auto. right; assumption.
    + set (w := {| widget_id := made; note := n |}).
      destruct (IH (<[abspath n := w]> ws) (S made) (acc ++ [w])%list)
        as (ws' & made' & rows & Heq & Hsub & Hrows & Hcount & Hle & Hprov).
      exists ws', made', (w :: rows). rewrite Heq, <- app_assoc.
      assert (Hins : ws ⊆ <[abspath n := w]> ws) by (apply insert_subseteq, Hlook).
      repeat split; auto.
      * etransitivity; eauto.
      * constructor; [|exact Hrows].
        eapply lookup_weaken; [|exact Hsub]. apply lookup_insert_eq.
      * rewrite map_size_insert_None in Hcount by exact Hlook. lia.
      * lia.
      * intros p w' Hw'.
        destruct (Hprov p w' Hw') as [Hold|(Hnone & k & ? & ? & ?)].
        -- destruct (decide (abspath n = p)) as [<-|Hne].
           ++ rewrite lookup_insert_eq in Hold. injection Hold as <-.
              right. split; auto. exists n. repeat split; auto. left; reflexivity.
           ++ rewrite lookup_insert_ne in Hold by exact Hne. left; exact Hold.
        -- right. split.
           ++ destruct (decide (abspath n = p)) as [<-|Hne].
              ** exact Hlook.
              ** rewrite lookup_insert_ne in Hnone by exact Hne. exact Hnone.
           ++ exists k. repeat split; auto. right; assumption.
Qed.

Lemma NoteFilterListBox_filter_spec (l : list Note) (lb : NoteFilterListBox) :
  let lb' := NoteFilterListBox_filter l lb in
  widgets lb ⊆ widgets lb' /\
  Forall2 (fun w n => widgets lb' !! abspath n = Some w) (list_walker lb') l /\
  (created lb' + size (widgets lb) = created lb + size (widgets lb'))%nat /\
  (created lb <= created lb')%nat /\
  (forall p w, widgets lb' !! p = Some w ->
     widgets lb !! p = Some w \/
     (widgets lb !! p = None /\ exists n, In n l /\ abspath n = p /\ note w = n)).
Proof.
  unfold NoteFilterListBox_filter.
  destruct (filter_loop l (widgets lb) (created lb) [])
    as (ws' & made' & rows & Heq & H).
  rewrite Heq. cbn. exact H.
Qed.

Lemma filter_calls_grow (ls : list (list Note)) :
  forall lb : NoteFilterListBox,
    widgets lb ⊆ widgets (filter_calls ls lb) /\
    (created (filter_calls ls lb) + size (widgets lb) =
     created lb + size (widgets (filter_calls ls lb)))%nat /\
    (created lb <= created (filter_calls ls lb))%nat.
Proof.
  induction ls as [|l ls IH]; intros lb.
  - cbn. repeat split; auto.
  - change (filter_calls (l :: ls) lb)
      with (filter_calls ls (NoteFilterListBox_filter l lb)).
    destruct (NoteFilterListBox_filter_spec l lb) as (Hsub & _ & Hcount & Hle & _).
    destruct (IH (NoteFilterListBox_filter l lb)) as (Hsub' & Hcount' & Hle').
    repeat split.
    + etransitivity; eauto.
    + lia.
    + lia.
Qed.

(** C10.  Take any filter call of the list box and any run of filter calls
    after it.  The call shows, for each matching note, the cache entry of
    the note's path; it keeps every entry the cache had; the later calls
    keep every entry too, so a note that comes up again gets the same
    widget; widgets are only made for new entries, one each; and the cache
    never gets smaller. *)
Theorem widget_cache_monotone (l : list Note) (ls : list (list Note))
  (lb : NoteFilterListBox) :
  let lb1 := NoteFilterListBox_filter l lb in
  let lb2 := filter_calls ls lb1 in
  Forall2 (fun w n => widgets lb1 !! abspath n = Some w) (list_walker lb1) l /\
  widgets lb ⊆ widgets lb1 /\
  widgets lb1 ⊆ widgets lb2 /\
  (size (widgets lb) <= size (widgets lb1) <= size (widgets lb2))%nat /\
  (created lb1 - created lb = size (widgets lb1) - size (widgets lb))%nat /\
  (created lb2 - created lb1 = size (widgets lb2) - size (widgets lb1))%nat.
Proof.
  cbv zeta.
  destruct (NoteFilterListBox_filter_spec l lb) as (Hsub & Hrows & Hcount & Hle & _).
  destruct (filter_calls_grow ls (NoteFilterListBox_filter l lb))
    as (Hsub' & Hcount' & Hle').
  repeat split; auto.
  - apply map_subseteq_size, Hsub.
  - apply map_subseteq_size, Hsub'.
  - lia.
  - lia.
Qed.

(** ** The frame *)

Ltac frame_simpl :=
  cbn [editor notebook suppress_filter suppress_focus _selected_note search_box
       list_box body trace with_search_box with_list_box with_selected
       with_flags with_body with_notebook log system
       edit_text edit_pos _shift_view_to_cursor fake_focus autocomplete_text
       set_autocomplete_text store_edit_text set_edit_pos update_widget
       filter_list] in *.

Lemma filter_fields `{T : Tables} (q : string) (st : MainFrame) :
  suppress_filter (filter q st) = suppress_filter st /\
  suppress_focus (filter q st) = suppress_focus st /\
  notebook (filter q st) = notebook st /\
  editor (filter q st) = editor st /\
  edit_text (search_box (filter q st)) = edit_text (search_box st) /\
  edit_pos (search_box (filter q st)) = edit_pos (search_box st).
Proof.
  unfold filter, set_selected_note.
  destruct (suppress_filter st) eqn:Hf; [auto 6|].
  frame_simpl.
  destruct (suppress_focus st) eqn:Hs; [frame_simpl; auto 6|].
  destruct (head _); frame_simpl; auto 6.
Qed.

Lemma filter_trace `{T : Tables} (q : string) (st : MainFrame) :
  suppress_filter st = false ->
  trace (filter q st) = (trace st ++ [Search q])%list.
Proof.
  intros Hf. unfold filter, set_selected_note. rewrite Hf. frame_simpl.
  destruct (suppress_focus st); [reflexivity|].
  destruct (head _); reflexivity.
Qed.

Lemma filter_no_focus `{T : Tables} (q : string) (st : MainFrame) :
  suppress_focus st = true ->
  _selected_note (filter q st) = _selected_note st /\
  search_box (filter q st) = search_box st.
Proof.
  intros Hs. unfold filter. destruct (suppress_filter st); [auto|].
  rewrite set_selected_note_suppressed by exact Hs. auto.
Qed.

(** The setter of the selection never asks the notebook anything, and no
    part of a filter pass turns the filter flag on. *)
Lemma set_selected_note_trace (n : option Note) (st : MainFrame) :
  trace (set_selected_note n st) = trace st /\
  suppress_filter (set_selected_note n st) = suppress_filter st.
Proof.
  unfold set_selected_note. destruct (suppress_focus st); [auto|].
  destruct n; auto.
Qed.

(** ** The display list *)

Lemma set_selected_note_rows (n : option Note) (st : MainFrame) :
  list_walker (list_box (set_selected_note n st)) = list_walker (list_box st).
Proof.
  unfold set_selected_note. destruct (suppress_focus st); [reflexivity|].
  destruct n as [nt|]; [|reflexivity].
  cbn. unfold focus_note. cbn.
  destruct (index_of_note nt (list_walker (list_box st))); reflexivity.
Qed.

Lemma filter_rows `{T : Tables} (q : string) (st : MainFrame) :
  suppress_filter st = false ->
  list_walker (list_box (filter q st)) =
  list_walker (NoteFilterListBox_filter (matching_notes (notebook st) q)
                                        (list_box st)).
Proof.
  intros Hf. unfold filter. rewrite Hf, set_selected_note_rows. reflexivity.
Qed.

Lemma rows_carry_notes (st : MainFrame) (ws : gmap string NoteWidget)
  (L : list Note) :
  cache_agrees st -> paths_unique (notebook st) ->
  (forall n, In n L -> In n (notes (notebook st))) ->
  (forall p w, ws !! p = Some w ->
     widgets (list_box st) !! p = Some w \/
     (widgets (list_box st) !! p = None /\
      exists n, In n L /\ abspath n = p /\ note w = n)) ->
  forall rows l,
    Forall2 (fun w n => ws !! abspath n = Some w) rows l ->
    (forall n, In n l -> In n L) ->
    map note rows = l.
Proof.
  intros Hcache Huniq HL Hprov rows l Hrows.
  induction Hrows as [|w n rows l Hw Hrows IH]; intros Hl; [reflexivity|].
  cbn [map]. f_equal.
  - assert (Hn : In n (notes (notebook st))) by (apply HL, Hl; left; reflexivity).
    destruct (Hprov _ _ Hw) as [Hold|(_ & k & Hk & Hpath & Hnote)].
    + eapply Hcache; eauto.
    + rewrite Hnote. apply Huniq; auto.
  - apply IH. intros k Hk. apply Hl. right; exact Hk.
Qed.

Lemma display_list_filter `{T : Tables} (q : string) (st : MainFrame) :
  suppress_filter st = false ->
  cache_agrees st -> paths_unique (notebook st) ->
  display_list (filter q st) = matching_notes (notebook st) q.
Proof.
  intros Hf Hcache Huniq. unfold display_list. rewrite (filter_rows q st Hf).
  destruct (NoteFilterListBox_filter_spec (matching_notes (notebook st) q)
              (list_box st)) as (_ & Hrows & _ & _ & Hprov).
  eapply (rows_carry_notes st _ (matching_notes (notebook st) q));
    eauto.
  intros n Hn. apply In_matching_notes in Hn. tauto.
Qed.

(** The hypothesis on the cache is kept by every filter pass, and holds
    when the frame is built. *)
Lemma cache_agrees_filter `{T : Tables} (q : string) (st : MainFrame) :
  paths_unique (notebook st) -> cache_agrees st -> cache_agrees (filter q st).
Proof.
  intros Huniq Hcache p w n Hw Hn Hp.
  destruct (filter_fields q st) as (_ & _ & Hnb & _).
  rewrite Hnb in Hn.
  unfold filter in Hw. destruct (suppress_filter st); [eapply Hcache; eauto|].
  assert (Hws : widgets (list_box (set_selected_note
                  (head (autocompletable_matches (notebook st) q))
                  (filter_list q st))) =
                widgets (NoteFilterListBox_filter (matching_notes (notebook st) q)
                           (list_box st))).
  { unfold set_selected_note. destruct (suppress_focus _); [reflexivity|].
    destruct (head _) as [nt|]; [|reflexivity].
    cbn. unfold focus_note. cbn.
    destruct (index_of_note nt _); reflexivity. }
  rewrite Hws in Hw.
  destruct (NoteFilterListBox_filter_spec (matching_notes (notebook st) q)
              (list_box st)) as (_ & _ & _ & _ & Hprov).
  destruct (Hprov p w Hw) as [Hold|(_ & k & Hk & Hpath & Hnote)].
  - eapply Hcache; eauto.
  - rewrite Hnote. apply Huniq; auto; [|congruence].
    apply In_matching_notes in Hk. tauto.
Qed.

Lemma cache_agrees_init `{T : Tables} (ed : string) (nb : PlainTextNoteBook) :
  paths_unique nb -> cache_agrees (MainFrame_init ed nb).
Proof.
  intros Huniq. unfold MainFrame_init. apply cache_agrees_filter; [exact Huniq|].
  intros p w n Hw. cbn in Hw. rewrite lookup_empty in Hw. discriminate.
Qed.

Lemma Sorted_adjacent (l : list Note) :
  Sorted newer_first l ->
  forall i a b, l !! i = Some a -> l !! S i = Some b -> (mtime b <= mtime a)%Z.
Proof.
  induction 1 as [|x l Hs IH Hhd]; intros i a b Ha Hb; [discriminate|].
  destruct i as [|i]; cbn in Ha, Hb.
  - injection Ha as <-. destruct l as [|y l]; [discriminate|].
    cbn in Hb. injection Hb as <-. inversion Hhd; subst. assumption.
  - eapply IH; eauto.
Qed.

(** C5.  After a filter pass (on a frame whose cached rows still carry the
    notebook's notes) the rows of the list are ordered by [mtime], newest
    first: each row is at least as new as the row after it, and notes of
    the same [mtime] stand in the order of the notebook's search result. *)
Theorem display_list_sorted `{T : Tables} (q : string) (st : MainFrame) :
  suppress_filter st = false ->
  cache_agrees st -> paths_unique (notebook st) ->
  let rows := display_list (filter q st) in
  Sorted newer_first rows /\
  (forall i a b, rows !! i = Some a -> rows !! S i = Some b ->
                 (mtime a >= mtime b)%Z) /\
  (forall t, List.filter (fun n => (mtime n =? t)%Z) rows =
             List.filter (fun n => (mtime n =? t)%Z) (search (notebook st) q)) /\
  Permutation rows (search (notebook st) q).
Proof.
  intros Hf Hcache Huniq. cbv zeta.
  rewrite (display_list_filter q st Hf Hcache Huniq).
  unfold matching_notes. repeat split.
  - apply sort_by_mtime_desc_Sorted.
  - intros i a b Ha Hb. apply Z.le_ge.
    exact (Sorted_adjacent _ (sort_by_mtime_desc_Sorted _) i a b Ha Hb).
  - intros t. apply sort_by_mtime_desc_stable.
  - apply sort_by_mtime_desc_Permutation.
Qed.

Lemma example_notebook_paths_unique : paths_unique example_notebook.
Proof.
  intros a b [<-|[<-|[]]] [<-|[<-|[]]]; cbn; congruence.
Qed.

Lemma example_frame_cache_agrees : cache_agrees example_frame.
Proof. apply cache_agrees_init, example_notebook_paths_unique. Qed.

Lemma display_list_sorted_witness :
  Sorted newer_first (display_list (filter "Gro" example_frame)).
Proof.
  apply (display_list_sorted "Gro" example_frame eq_refl
           example_frame_cache_agrees example_notebook_paths_unique).
Defined.

(** ** The search box *)

(** C9, amended.  When something is typed and there is no suggestion,
    [get_text] hands back the typed text with no styled range at all; in the
    three other cases (placeholder, typed text completed by the suggestion,
    suggestion alone) the lengths of the styled ranges add up to the length
    of the text. *)
Theorem get_text_spans `{T : Tables} (w : AutocompleteWidget) :
  if str_bool (edit_text w) && negb (opt_bool (autocomplete_text w))
  then get_text w = (edit_text w, [])
  else spans_claim w.
Proof.
  unfold spans_claim, get_text.
  destruct (str_bool (edit_text w)) eqn:He;
    destruct (autocomplete_text w) as [a|] eqn:Ha; cbn [opt_bool negb andb];
    try reflexivity.
  - destruct (str_bool a) eqn:Hsa; cbn [negb andb]; [|reflexivity].
    destruct (startswith (lower a) (lower (edit_text w)));
      cbn [fst snd spans_length fold_right]; lia.
  - destruct (str_bool a) eqn:Hsa; cbn [negb andb]; [|reflexivity].
    cbn [fst snd spans_length fold_right]. lia.
Qed.

(** C9 as stated fails for typed text without a suggestion: the text has
    three characters and no styled range. *)
Lemma get_text_spans_typed_only :
  ~ spans_claim {| edit_text := "xyz"; edit_pos := 3;
                   _shift_view_to_cursor := false; fake_focus := true;
                   autocomplete_text := None |}.
Proof. unfold spans_claim. vm_compute. discriminate. Qed.

Lemma get_text_completed `{T : Tables} (w : AutocompleteWidget) (a : string) :
  autocomplete_text w = Some a ->
  edit_text w <> "" -> starts_ci a (edit_text w) = true ->
  fst (get_text w) = edit_text w ++ str_drop (String.length (edit_text w)) a.
Proof.
  intros Hw He Hs. unfold get_text. rewrite Hw. cbn [opt_bool].
  apply str_bool_true in He. rewrite He. cbn [negb andb].
  destruct (str_bool a) eqn:Ha; cbn [negb].
  - unfold starts_ci in Hs. rewrite Hs. reflexivity.
  - apply str_bool_false in Ha. subst a.
    unfold Edit_get_text. cbn [fst].
    assert (Hd : forall n, str_drop n "" = "") by (intros [|?]; reflexivity).
    rewrite Hd, append_empty. reflexivity.
Qed.

(** [consume] on the widget alone.  With a suggestion longer than the typed
    text it returns true, the typed text is the suggestion, the suggestion
    is gone, and the cursor stands where screen column [len(suggestion)]
    falls in the first row of the text; otherwise it returns false and the
    widget is as it was.  It never raises, and the typed text never gets
    shorter. *)
Lemma Widget_consume_spec `{T : Tables} (w : AutocompleteWidget) :
  match Widget_consume w with
  | Return true w' =>
      exists a, autocomplete_text w = Some a /\
                (String.length (edit_text w) < String.length a)%nat /\
                edit_text w' = a /\
                edit_pos w' =
                  Nat.min (calc_text_pos (first_line a)
                             (String.length a + view_shift (store_edit_text a w)) 0)
                          (String.length a) /\
                autocomplete_text w' = None
  | Return false w' =>
      w' = w /\
      forall a, autocomplete_text w = Some a ->
                (String.length a <= String.length (edit_text w))%nat
  | Raise _ _ => False
  end /\
  (String.length (edit_text w) <=
   String.length (edit_text (state_of (Widget_consume w))))%nat.
Proof.
  unfold Widget_consume, consume.
  destruct (autocomplete_text w) as [a|] eqn:Ha.
  - destruct (str_bool a) eqn:Hsa; cbn [andb].
    + destruct (Nat.ltb_spec (String.length (edit_text w)) (String.length a))
        as [Hlt|Hge].
      * unfold set_edit_text, update_widget, move_cursor_to_coords, update_widget.
        cbn [store_edit_text autocomplete_text edit_text edit_pos
             set_autocomplete_text state_of].
        rewrite Ha.
        cbn [autocomplete_text edit_text edit_pos set_autocomplete_text state_of].
        split; [|lia].
        exists a. repeat split; auto.
        rewrite (get_text_completed _ a);
          [|exact Ha|apply str_bool_true, Hsa|apply starts_ci_refl].
        cbn [edit_text]. rewrite str_drop_all, append_empty. reflexivity.
      * cbn [state_of]. split; [|lia]. split; [reflexivity|].
        intros a' [= <-]. exact Hge.
    + cbn [state_of]. split; [|lia]. split; [reflexivity|].
      intros a' [= <-]. apply str_bool_false in Hsa. subst a. cbn. lia.
  - cbn [state_of]. split; [|lia]. split; [reflexivity|]. discriminate.
Qed.

(** When the suggestion is one line of characters that take at most one
    column each, the cursor is at its end after [consume]. *)
Lemma Widget_consume_narrow `{T : Tables} (w w' : AutocompleteWidget) (a : string) :
  Widget_consume w = Return true w' ->
  autocomplete_text w = Some a ->
  first_line a = a -> (calc_width a <= String.length a)%nat ->
  edit_pos w' = String.length a.
Proof.
  intros Hc Ha Hline Hw.
  destruct (Widget_consume_spec w) as [Hspec _]. rewrite Hc in Hspec.
  destruct Hspec as (a' & Ha' & _ & _ & Hp & _).
  rewrite Ha in Ha'. injection Ha' as <-.
  rewrite Hp, Hline, calc_text_pos_end by lia. lia.
Qed.

(** C6: the code at the failing input.  The suggestion is a title of three
    characters that take two screen columns each, and nothing is typed.
    [consume] returns true, the typed text is the title and the suggestion
    is gone, but the cursor is not at the end of the text: it is sent to
    screen column 3, the number of characters of the title, and that column
    lies in the second character, so the cursor stands at index 1. *)
Theorem consume_cursor_inside_title :
  String.length wide_title = 3%nat /\
  calc_width (T := wide_tables) wide_title = 6%nat /\
  Widget_consume (T := wide_tables) wide_box =
    Return true
      {| edit_text := wide_title; edit_pos := 1;
         _shift_view_to_cursor := true; fake_focus := true;
         autocomplete_text := None |}.
Proof. repeat split. Qed.

(** ** Changes of the typed text *)

Lemma set_edit_text_fields `{T : Tables} (text : string) (st : MainFrame) :
  let st' := search_box_set_edit_text text st in
  edit_text (search_box st') = text /\
  edit_pos (search_box st') =
    Nat.min (edit_pos (search_box st)) (String.length text) /\
  suppress_filter st' = suppress_filter st /\
  suppress_focus st' = suppress_focus st /\
  notebook st' = notebook st /\
  list_box st' = list_box (filter text st) /\
  _selected_note st' = _selected_note (filter text st) /\
  autocomplete_text (search_box st') =
    autocomplete_text (search_box (filter text st)) /\
  trace st' = trace (filter text st).
Proof.
  cbv zeta. unfold search_box_set_edit_text, set_edit_text, on_search_box_changed.
  destruct (filter_fields text st) as (H1 & H2 & H3 & _ & _ & H6).
  frame_simpl. rewrite H6. auto 10.
Qed.

Lemma char_key_not_named (c : ascii) (name : string) :
  (2 <= String.length name)%nat -> String.eqb (String c "") name = false.
Proof.
  destruct name as [|a [|b name]]; cbn; try lia.
  intros _. destruct (Ascii.eqb c a); reflexivity.
Qed.

Lemma valid_char_single (key : string) :
  valid_char key = true -> exists c, key = String c "".
Proof.
  destruct key as [|c [|d key]]; cbn; try discriminate. eauto.
Qed.

Lemma keypress_char `{T : Tables} mv (size : nat * nat) (key : string) (st : MainFrame) :
  valid_char key = true ->
  keypress mv size key st =
  Return None
    (update_widget search_box with_search_box
       (set_edit_pos (edit_pos (search_box st) + String.length key))
       (search_box_set_edit_text (typed_after key (search_box st))
          (with_flags false false st))).
Proof.
  intros Hv. destruct (valid_char_single key Hv) as [c ->].
  unfold keypress, key_in. cbn [existsb].
  rewrite !char_key_not_named by (cbn; lia).
  cbn [orb]. rewrite andb_false_r.
  unfold search_box_keypress, Edit_keypress. rewrite Hv. reflexivity.
Qed.

(** No key turns the filter flag on: it is off after every key press,
    whatever the key and whether the handler returns or raises. *)
Lemma set_edit_text_flag `{T : Tables} (text : string) (st : MainFrame) :
  suppress_filter (search_box_set_edit_text text st) = suppress_filter st.
Proof. apply (set_edit_text_fields text st). Qed.

Lemma consume_flag `{T : Tables} (st : MainFrame) :
  suppress_filter (state_of (search_box_consume st)) = suppress_filter st.
Proof.
  unfold search_box_consume, consume.
  destruct (autocomplete_text (search_box st)) as [a|]; [|reflexivity].
  destruct (str_bool a && _); [|reflexivity].
  fold (search_box_set_edit_text a st).
  destruct (autocomplete_text (search_box (search_box_set_edit_text a st)));
    cbn [state_of]; unfold move_cursor_to_coords; frame_simpl;
    apply set_edit_text_flag.
Qed.

Lemma Edit_keypress_flag `{T : Tables} (key : string) (st : MainFrame) :
  suppress_filter (snd (search_box_keypress key st)) = suppress_filter st.
Proof.
  unfold search_box_keypress, Edit_keypress.
  fold search_box_set_edit_text.
  repeat match goal with
         | |- context [if ?b then _ else _] => destruct b
         end; cbn [snd]; frame_simpl; auto using set_edit_text_flag.
Qed.

Lemma ListBox_keypress_flag mv (size : nat * nat) (key : string)
  (st : MainFrame) :
  suppress_filter (state_of (NoteFilterListBox_keypress mv size key st)) =
  suppress_filter st.
Proof.
  unfold NoteFilterListBox_keypress.
  destruct (ListBox_keypress mv size key (list_box st)) as [result lb].
  unfold ListBox_selected_note.
  destruct (focus _); cbn [bind state_of]; [|reflexivity].
  unfold on_list_box_changed.
  rewrite (proj2 (set_selected_note_trace _ _)). reflexivity.
Qed.

Lemma keypress_filter_flag `{T : Tables} mv (size : nat * nat) (key : string) (st : MainFrame) :
  suppress_filter (state_of (keypress mv size key st)) = false.
Proof.
  unfold keypress. cbv zeta.
  destruct (key_in key ["esc"; "ctrl d"]).
  { destruct (_selected_note _); cbn [state_of].
    - rewrite (proj2 (set_selected_note_trace _ _)). reflexivity.
    - destruct (str_bool _); cbn [state_of]; [|reflexivity].
      rewrite set_edit_text_flag. reflexivity. }
  destruct (key_in key ["enter"]).
  { cbn [state_of]. rewrite (proj1 (filter_fields _ _)). frame_simpl.
    destruct (_selected_note st); [reflexivity|].
    destruct (str_bool _); [|reflexivity].
    destruct (add_new _ _); reflexivity. }
  destruct (key_in key ["ctrl x"]); [reflexivity|].
  destruct (_ && key_in key ["tab"; "left"; "right"]).
  { pose proof (consume_flag (with_flags false false st)) as Hc.
    destruct (search_box_consume (with_flags false false st)) as [[|] s|e s];
      cbn [bind state_of] in *; auto.
    pose proof (Edit_keypress_flag key s) as Hk.
    destruct (search_box_keypress key s) as [r s']. cbn [state_of snd] in *.
    rewrite Hk, Hc. reflexivity. }
  destruct (key_in key ["down"]).
  { destruct (negb _).
    - unfold ListBox_selected_note. destruct (focus _); cbn [bind state_of];
        [|reflexivity].
      unfold on_list_box_changed.
      rewrite (proj2 (set_selected_note_trace _ _)). reflexivity.
    - rewrite ListBox_keypress_flag. reflexivity. }
  destruct (key_in key ["up"; "page up"; "page down"]).
  { rewrite ListBox_keypress_flag. reflexivity. }
  destruct (key_in key ["backspace"]).
  { match goal with
    | |- context [bind ?m _] =>
        assert (Hm : suppress_filter (state_of m) = false)
    end.
    { destruct (match _selected_note _ with Some _ => _ | None => _ end).
      - rewrite consume_flag. reflexivity.
      - cbn [state_of]. rewrite (proj2 (set_selected_note_trace _ _)).
        reflexivity. }
    match goal with
    | |- context [bind ?m _] => destruct m as [b s|e s]
    end; cbn [bind state_of] in *; auto.
    pose proof (Edit_keypress_flag key (with_flags (suppress_filter s) true s))
      as Hk.
    destruct (search_box_keypress key _) as [r s']. cbn [state_of snd] in *.
    rewrite Hk. exact Hm. }
  pose proof (Edit_keypress_flag key (with_flags false false st)) as Hk.
  destruct (search_box_keypress key _) as [r s']. cbn [state_of snd] in *.
  exact Hk.
Qed.

(** C2, amended.  The filter flag is never turned on: it is off in the state
    in which a filter pass sets the selection.  The notebook is still
    searched exactly once per change of the typed text, because setting the
    selection writes the suggestion and the list focus and never the typed
    text.  This holds for every [set_edit_text] on a frame whose filter flag
    is off, and so for every character typed; and the flag is off after
    every key press, whatever the key. *)
Theorem query_change_filters_once `{T : Tables} mv (size : nat * nat) (key text : string)
  (st : MainFrame) :
  (suppress_filter st = false ->
   suppress_filter (filter_list text st) = false /\
   trace (search_box_set_edit_text text st) = (trace st ++ [Search text])%list /\
   suppress_filter (search_box_set_edit_text text st) = false) /\
  (valid_char key = true ->
   exists st',
     keypress mv size key st = Return None st' /\
     edit_text (search_box st') = typed_after key (search_box st) /\
     trace st' = (trace st ++ [Search (typed_after key (search_box st))])%list /\
     suppress_filter st' = false) /\
  suppress_filter (state_of (keypress mv size key st)) = false.
Proof.
  split; [|split; [|apply keypress_filter_flag]].
  - intros Hf.
    destruct (set_edit_text_fields text st) as (_ & _ & Hsf & _ & _ & _ & _ & _ & Ht).
    rewrite Ht, Hsf, (filter_trace text st Hf). auto.
  - intros Hv. rewrite (keypress_char mv size key st Hv).
    eexists. split; [reflexivity|].
    destruct (set_edit_text_fields (typed_after key (search_box st))
                (with_flags false false st))
      as (He & _ & Hsf & _ & _ & _ & _ & _ & Ht).
    frame_simpl. rewrite He, Ht, Hsf.
    rewrite filter_trace by reflexivity. auto.
Qed.

Lemma query_change_filters_once_witness :
  trace (search_box_set_edit_text "G" example_frame) =
  (trace example_frame ++ [Search "G"])%list /\
  exists st', keypress still (80, 24)%nat "G" example_frame = Return None st'.
Proof.
  destruct (query_change_filters_once still (80, 24)%nat "G" "G" example_frame)
    as (H1 & H2 & _).
  split.
  - apply H1. reflexivity.
  - destruct (H2 eq_refl) as (st' & Hk & _). exists st'. exact Hk.
Defined.

(** C2 as stated fails: in the state in which the filter pass on ["G"] sets
    the selection the filter flag is off. *)
Lemma filter_flag_never_set : ~ reentrancy_claim "G" example_frame.
Proof. intros [H _]. vm_compute in H. discriminate H. Qed.

(** ** Backspace *)

Lemma keypress_backspace `{T : Tables} mv (size : nat * nat) (st : MainFrame) :
  keypress mv size "backspace" st =
  let st := with_flags false false st in
  let consume :=
    match _selected_note st with
    | Some sel =>
        if String.eqb (edit_text (search_box st)) "" then true
        else negb (starts_ci (title sel) (edit_text (search_box st)))
    | None => false
    end in
  bind (if consume then search_box_consume st
        else Return false (set_selected_note None st))
       (fun _ st =>
          let st := with_flags (suppress_filter st) true st in
          let '(r, st) := search_box_keypress "backspace" st in Return r st).
Proof.
  unfold keypress.
  change (key_in "backspace" ["esc"; "ctrl d"]) with false.
  change (key_in "backspace" ["enter"]) with false.
  change (key_in "backspace" ["ctrl x"]) with false.
  change (key_in "backspace" ["tab"; "left"; "right"]) with false.
  change (key_in "backspace" ["down"]) with false.
  change (key_in "backspace" ["up"; "page up"; "page down"]) with false.
  change (key_in "backspace" ["backspace"]) with true.
  cbv zeta. rewrite andb_false_r. reflexivity.
Qed.

Lemma search_box_keypress_backspace `{T : Tables} (st : MainFrame) :
  search_box_keypress "backspace" st =
  if (edit_pos (search_box st) =? 0)%nat then (Some "backspace", st)
  else (None,
        update_widget search_box with_search_box
          (set_edit_pos (edit_pos (search_box st) - 1))
          (search_box_set_edit_text (backspaced (search_box st)) st)).
Proof. reflexivity. Qed.

(** [backspace] in the edit box while re-focusing is suppressed: the
    character before the cursor goes, the selection and the suggestion stay
    as they are. *)
Lemma backspace_no_focus `{T : Tables} (st : MainFrame) :
  suppress_focus st = true ->
  let '(r, st') := search_box_keypress "backspace" st in
  r = (if (edit_pos (search_box st) =? 0)%nat then Some "backspace" else None) /\
  edit_text (search_box st') = backspaced (search_box st) /\
  _selected_note st' = _selected_note st /\
  autocomplete_text (search_box st') = autocomplete_text (search_box st) /\
  suppress_focus st' = true /\
  notebook st' = notebook st.
Proof.
  intros Hs. rewrite search_box_keypress_backspace.
  destruct (Nat.eqb_spec (edit_pos (search_box st)) 0) as [Hp|Hp].
  - repeat split; auto. unfold backspaced. rewrite Hp. reflexivity.
  - destruct (set_edit_text_fields (backspaced (search_box st)) st)
      as (He & _ & _ & Hsf & Hnb & _ & Hsel & Hauto & _).
    destruct (filter_no_focus (backspaced (search_box st)) st Hs) as [Hsel' Hbox].
    frame_simpl. rewrite He, Hsel, Hauto, Hsf, Hnb, Hsel', Hbox. auto 6.
Qed.

(** [consume] on the search box inside the frame, flags off, where some note
    of the notebook has a title that starts with the suggestion: the filter
    pass run by the [change] signal selects a note [m] and suggests its
    title, and [consume] then goes through as on the widget alone.  The
    cursor is somewhere in the new text. *)
Lemma consume_in_frame `{T : Tables} (st : MainFrame) (a : string) :
  suppress_filter st = false -> suppress_focus st = false ->
  autocomplete_text (search_box st) = Some a ->
  (String.length (edit_text (search_box st)) < String.length a)%nat ->
  (exists n, In n (notes (notebook st)) /\ starts_ci (title n) a = true) ->
  exists m st',
    search_box_consume st = Return true st' /\
    edit_text (search_box st') = a /\
    (edit_pos (search_box st') <= String.length a)%nat /\
    autocomplete_text (search_box st') = None /\
    _selected_note st' = Some m /\
    starts_ci (title m) a = true /\
    notebook st' = notebook st /\
    suppress_filter st' = false /\
    trace st' = (trace st ++ [Search a])%list.
Proof.
  intros Hf Hs Ha Hlt Hex.
  assert (Hane : a <> "") by (intros ->; cbn in Hlt; lia).
  destruct (filter_prefix_match a st Hf Hs Hane) as [Hsome _].
  destruct (Hsome Hex) as (m & Hsel & Hauto & _ & Hm & _).
  destruct (set_edit_text_fields a st)
    as (He & Hp & Hsf & Hsfo & Hnb & _ & Hsel' & Hauto' & Ht).
  cbv zeta in *.
  exists m. unfold search_box_consume, consume. rewrite Ha.
  apply str_bool_true in Hane. rewrite Hane.
  apply Nat.ltb_lt in Hlt. rewrite Hlt. cbn [andb].
  fold (search_box_set_edit_text a st).
  rewrite Hauto', Hauto.
  eexists. split; [reflexivity|].
  unfold move_cursor_to_coords. frame_simpl.
  rewrite He, Hsel', Hsel, Hnb, Hsf, Hf, Ht, (filter_trace a st Hf).
  repeat split; auto. lia.
Qed.

(** C3, amended.  [backspace] with a note selected and a typed text that is
    empty or not the start of the note's title does not clear the
    selection: the handler turns the suggestion into typed text when the
    suggestion is the longer one, and then the edit box deletes the
    character before the cursor, with re-focusing suppressed.  So a note is
    still selected afterwards, and when the title is longer than the typed
    text, the suggestion is gone and the typed text is the title without
    the character before the place [p] where [consume] left the cursor (the
    whole title, and the key handed back, when that is the start). *)
Theorem backspace_consumes_suggestion `{T : Tables} mv (size : nat * nat)
  (st : MainFrame) (n : Note) :
  _selected_note st = Some n ->
  autocomplete_text (search_box st) = Some (title n) ->
  In n (notes (notebook st)) ->
  edit_text (search_box st) = "" \/
  starts_ci (title n) (edit_text (search_box st)) = false ->
  exists r st',
    keypress mv size "backspace" st = Return r st' /\
    (exists m, _selected_note st' = Some m) /\
    suppress_focus st' = true /\
    ((String.length (edit_text (search_box st)) < String.length (title n))%nat ->
     autocomplete_text (search_box st') = None /\
     exists p, (p <= String.length (title n))%nat /\
       r = (if (p =? 0)%nat then Some "backspace" else None) /\
       edit_text (search_box st') =
         str_take (p - 1) (title n) ++ str_drop p (title n)).
Proof.
  intros Hsel Hauto Hin Hcond.
  rewrite keypress_backspace. cbv zeta. frame_simpl. rewrite Hsel.
  assert (Hc : (if String.eqb (edit_text (search_box st)) "" then true
                else negb (starts_ci (title n) (edit_text (search_box st))))
               = true).
  { destruct Hcond as [-> | ->]; [reflexivity|].
    destruct (String.eqb _ _); reflexivity. }
  rewrite Hc.
  destruct (Nat.ltb_spec (String.length (edit_text (search_box st)))
              (String.length (title n))) as [Hlt|Hge].
  - destruct (consume_in_frame (with_flags false false st) (title n))
      as (m & st1 & Hcons & He & Hp & Ha1 & Hs1 & _ & _ & _ & _); auto.
    { exists n. split; [exact Hin|apply starts_ci_refl]. }
    rewrite Hcons. cbn [bind].
    pose proof (backspace_no_focus (with_flags (suppress_filter st1) true st1)
                  eq_refl) as Hb.
    destruct (search_box_keypress "backspace"
                (with_flags (suppress_filter st1) true st1)) as [r st'].
    destruct Hb as (Hr & He' & Hsel' & Hauto' & Hsf' & _).
    frame_simpl. exists r, st'. split; [reflexivity|].
    split; [exists m; congruence|]. split; [exact Hsf'|].
    intros _. split; [congruence|].
    exists (edit_pos (search_box st1)). split; [exact Hp|]. split; [exact Hr|].
    rewrite He'. unfold backspaced. rewrite He. reflexivity.
  - assert (Hcons : search_box_consume (with_flags false false st) =
                    Return false (with_flags false false st)).
    { unfold search_box_consume, consume. frame_simpl. rewrite Hauto.
      apply Nat.ltb_ge in Hge. rewrite Hge, andb_false_r. reflexivity. }
    rewrite Hcons. cbn [bind]. frame_simpl.
    pose proof (backspace_no_focus
                  (with_flags false true (with_flags false false st)) eq_refl)
      as Hb.
    destruct (search_box_keypress "backspace"
                (with_flags false true (with_flags false false st)))
      as [r st'].
    destruct Hb as (_ & _ & Hsel' & _ & Hsf' & _).
    frame_simpl. exists r, st'. split; [reflexivity|].
    split; [exists n; congruence|]. split; [exact Hsf'|]. lia.
Qed.

Lemma backspace_consumes_suggestion_witness :
  exists r st',
    keypress still (80, 24)%nat "backspace" browsing = Return r st' /\
    (exists m, _selected_note st' = Some m) /\
    edit_text (search_box st') = "Grocery Lis".
Proof.
  destruct (backspace_consumes_suggestion still (80, 24)%nat browsing grocery_list)
    as (r & st' & Hk & Hsel & _).
  - reflexivity.
  - reflexivity.
  - right; left; reflexivity.
  - left; reflexivity.
  - exists r, st'. split; [exact Hk|]. split; [exact Hsel|].
    vm_compute in Hk. injection Hk as _ <-. reflexivity.
Defined.

(** C3 as stated fails: with "Grocery List" selected and nothing typed,
    [backspace] leaves a note selected and changes the typed text. *)
Lemma backspace_does_not_clear :
  ~ backspace_clear_claim still (80, 24)%nat browsing.
Proof.
  intros H.
  destruct (H grocery_list eq_refl (or_introl eq_refl)) as (r & st' & Hk & Hsel & _).
  vm_compute in Hk. injection Hk as _ <-. discriminate Hsel.
Qed.

(** The same key where the selected title has three double-width
    characters and nothing is typed: [consume] leaves the cursor behind the
    first character, and it is the first character that goes. *)
Lemma backspace_inside_wide_title :
  _selected_note wide_browsing = Some wide_note /\
  edit_text (search_box wide_browsing) = "" /\
  exists st',
    keypress (T := wide_tables) still (80, 24)%nat "backspace" wide_browsing =
      Return None st' /\
    edit_text (search_box st') = str_drop 1 wide_title /\
    _selected_note st' = Some wide_note.
Proof.
  split; [reflexivity|]. split; [reflexivity|].
  eexists. split; [vm_compute; reflexivity|]. split; reflexivity.
Qed.

(** C4, amended.  [backspace] with a note selected and a typed text that is
    not empty and is the start of the note's title: the handler clears the
    selection and the suggestion, the edit box deletes the character before
    the cursor, and the filter pass that follows runs with re-focusing
    suppressed, so nothing is selected afterwards. *)
Theorem backspace_clears_selection `{T : Tables} mv (size : nat * nat) (st : MainFrame)
  (n : Note) :
  _selected_note st = Some n ->
  edit_text (search_box st) <> "" ->
  starts_ci (title n) (edit_text (search_box st)) = true ->
  exists r st',
    keypress mv size "backspace" st = Return r st' /\
    edit_text (search_box st') = backspaced (search_box st) /\
    _selected_note st' = None /\
    autocomplete_text (search_box st') = None /\
    suppress_focus st' = true.
Proof.
  intros Hsel Hne Hstart.
  rewrite keypress_backspace. cbv zeta. frame_simpl. rewrite Hsel, Hstart.
  apply String.eqb_neq in Hne. rewrite Hne. cbn [negb bind].
  set (st1 := set_selected_note None (with_flags false false st)).
  pose proof (backspace_no_focus (with_flags (suppress_filter st1) true st1)
                eq_refl) as Hb.
  destruct (search_box_keypress "backspace"
              (with_flags (suppress_filter st1) true st1)) as [r st'].
  destruct Hb as (_ & He & Hsel' & Hauto' & Hsf' & _).
  exists r, st'. split; [reflexivity|].
  rewrite He, Hsel', Hauto'. auto.
Qed.

Lemma backspace_clears_selection_witness :
  exists r st',
    keypress still (80, 24)%nat "backspace" scenario_c = Return r st' /\
    edit_text (search_box st') = "Gr" /\
    _selected_note st' = None.
Proof.
  destruct (backspace_clears_selection still (80, 24)%nat scenario_c grocery_list)
    as (r & st' & Hk & He & Hsel & _).
  - reflexivity.
  - discriminate.
  - reflexivity.
  - exists r, st'. split; [exact Hk|]. split; [exact He|exact Hsel].
Defined.

(** C4 as stated fails in scenario C: after [backspace] the list still shows
    "Grocery List", and nothing is selected. *)
Lemma backspace_drops_selection :
  ~ backspace_keep_claim still (80, 24)%nat scenario_c.
Proof.
  intros H.
  destruct (H grocery_list eq_refl ltac:(discriminate) eq_refl)
    as (r & st' & Hk & _ & Hkeep).
  vm_compute in Hk. injection Hk as _ <-.
  assert (Hsel : @None Note = Some grocery_list); [|discriminate Hsel].
  apply Hkeep. left. reflexivity.
Qed.

(** ** Enter *)

Lemma keypress_enter `{T : Tables} mv (size : nat * nat) (st : MainFrame) :
  keypress mv size "enter" st =
  let st := with_flags false false st in
  let st :=
    match _selected_note st with
    | Some sel => system (editor st ++ " " ++ quote (abspath sel)) st
    | None =>
        let typed := edit_text (search_box st) in
        if str_bool typed then
          match add_new (notebook st) typed with
          | Added n nb' =>
              let st := with_notebook nb' (log (AddNew typed) st) in
              system (editor st ++ " " ++ quote (abspath n)) st
          | NoteAlreadyExistsError =>
              let st := log (AddNew typed) st in
              system (editor st ++ " " ++
                      quote (typed ++ extension (notebook st))) st
          | InvalidNoteTitleError => log (AddNew typed) st
          end
        else st
    end in
  let st := with_flags (suppress_filter st) true st in
  Return None (filter (edit_text (search_box st)) st).
Proof.
  unfold keypress.
  change (key_in "enter" ["esc"; "ctrl d"]) with false.
  change (key_in "enter" ["enter"]) with true.
  reflexivity.
Qed.

(** Every accept ends in one filter pass on the typed text with re-focusing
    suppressed, and returns. *)
Ltac after_filter :=
  match goal with
  | |- context [filter ?q ?s] =>
      let Hsf := fresh in let He := fresh in let Hsel := fresh in
      let Ht := fresh in let Hnb := fresh in
      destruct (filter_fields q s) as (_ & Hsf & Hnb & _ & He & _);
      destruct (filter_no_focus q s eq_refl) as [Hsel _];
      pose proof (filter_trace q s eq_refl) as Ht;
      rewrite ?Hsf, ?Hsel, ?He, ?Ht, ?Hnb; clear Hsf He Hsel Ht Hnb
  end.

Lemma enter_refilters `{T : Tables} mv (size : nat * nat) (st : MainFrame) :
  exists st',
    keypress mv size "enter" st = Return None st' /\
    suppress_focus st' = true /\
    _selected_note st' = _selected_note st /\
    edit_text (search_box st') = edit_text (search_box st) /\
    exists before,
      trace st' = (before ++ [Search (edit_text (search_box st))])%list.
Proof.
  rewrite keypress_enter. cbv zeta. frame_simpl.
  destruct (_selected_note st) as [sel|] eqn:Hst;
    [|destruct (str_bool (edit_text (search_box st)));
      [destruct (add_new (notebook st) (edit_text (search_box st)))|]];
    (eexists; split; [reflexivity|]); after_filter; frame_simpl; eauto 6.
Qed.

(** Accept on a typed title the notebook refuses: nothing is added; for a
    title that exists the editor is started on the typed text followed by
    the notebook's extension, for an invalid title it is not started. *)
Lemma enter_refused `{T : Tables} mv (size : nat * nat) (st : MainFrame) :
  _selected_note st = None ->
  edit_text (search_box st) <> "" ->
  let typed := edit_text (search_box st) in
  exists st',
    keypress mv size "enter" st = Return None st' /\
    (add_new (notebook st) typed = NoteAlreadyExistsError ->
     notebook st' = notebook st /\
     trace st' =
       (trace st ++
        [AddNew typed;
         System (editor st ++ " " ++ quote (typed ++ extension (notebook st)));
         Search typed])%list) /\
    (add_new (notebook st) typed = InvalidNoteTitleError ->
     notebook st' = notebook st /\
     trace st' = (trace st ++ [AddNew typed; Search typed])%list).
Proof.
  intros Hsel Hne. cbv zeta. rewrite keypress_enter. cbv zeta.
  frame_simpl. rewrite Hsel. apply str_bool_true in Hne. rewrite Hne.
  eexists. split; [reflexivity|].
  split; intros ->; frame_simpl; after_filter; frame_simpl;
    rewrite <- ?app_assoc; auto.
Qed.

(** C7: the code at the failing input.  "Grocery List" is typed, no note is
    selected, and a note of that title exists at
    [/notes/Grocery List.txt].  Accept asks the notebook to add the title,
    is refused, adds nothing, and starts the editor on [Grocery List.txt],
    a name relative to the working directory, not on the path of the
    existing note; then it filters again. *)
Theorem enter_on_existing_title mv (size : nat * nat) :
  _selected_note existing_title_typed = None /\
  edit_text (search_box existing_title_typed) = "Grocery List" /\
  add_new (notebook existing_title_typed) "Grocery List" = NoteAlreadyExistsError /\
  abspath grocery_list = "/notes/Grocery List.txt" /\
  exists st',
    keypress mv size "enter" existing_title_typed = Return None st' /\
    notebook st' = example_notebook /\
    trace st' =
      (trace existing_title_typed ++
       [AddNew "Grocery List"; System "vi 'Grocery List.txt'";
        Search "Grocery List"])%list.
Proof.
  repeat split; try reflexivity.
  rewrite keypress_enter. eexists. split; [reflexivity|].
  split; vm_compute; reflexivity.
Qed.

(** ** Navigation keys *)

Lemma keypress_navigation `{T : Tables} mv (size : nat * nat) (st : MainFrame) :
  list_walker (list_box st) = [] ->
  (exists st', keypress mv size "down" st = Raise AttributeError st') /\
  (exists st', keypress mv size "up" st = Raise AttributeError st') /\
  (exists st', keypress mv size "page up" st = Raise AttributeError st') /\
  (exists st', keypress mv size "page down" st = Raise AttributeError st').
Proof.
  intros Hrows.
  assert (Hlb : forall st0 key,
             list_walker (list_box st0) = [] ->
             exists st', NoteFilterListBox_keypress mv size key st0 =
                         Raise AttributeError st').
  { intros st0 key H0.
    unfold NoteFilterListBox_keypress, ListBox_keypress, focus.
    rewrite H0, lookup_nil. unfold ListBox_selected_note, focus.
    frame_simpl. rewrite H0, lookup_nil. cbn [bind]. eauto. }
  repeat split.
  - unfold keypress.
    change (key_in "down" ["esc"; "ctrl d"]) with false.
    change (key_in "down" ["enter"]) with false.
    change (key_in "down" ["ctrl x"]) with false.
    change (key_in "down" ["tab"; "left"; "right"]) with false.
    change (key_in "down" ["down"]) with true.
    cbv zeta. rewrite andb_false_r.
    destruct (lb_fake_focus (list_box (with_flags false false st))) eqn:Hff;
      cbn [negb].
    + apply Hlb. exact Hrows.
    + unfold ListBox_selected_note, focus. frame_simpl.
      cbn [set_lb_fake_focus list_walker focus_position].
      rewrite Hrows, lookup_nil. cbn [bind]. eauto.
  - unfold keypress.
    change (key_in "up" ["esc"; "ctrl d"]) with false.
    change (key_in "up" ["enter"]) with false.
    change (key_in "up" ["ctrl x"]) with false.
    change (key_in "up" ["tab"; "left"; "right"]) with false.
    change (key_in "up" ["down"]) with false.
    change (key_in "up" ["up"; "page up"; "page down"]) with true.
    cbv zeta. rewrite andb_false_r. apply Hlb. exact Hrows.
  - unfold keypress.
    change (key_in "page up" ["esc"; "ctrl d"]) with false.
    change (key_in "page up" ["enter"]) with false.
    change (key_in "page up" ["ctrl x"]) with false.
    change (key_in "page up" ["tab"; "left"; "right"]) with false.
    change (key_in "page up" ["down"]) with false.
    change (key_in "page up" ["up"; "page up"; "page down"]) with true.
    cbv zeta. rewrite andb_false_r. apply Hlb. exact Hrows.
  - unfold keypress.
    change (key_in "page down" ["esc"; "ctrl d"]) with false.
    change (key_in "page down" ["enter"]) with false.
    change (key_in "page down" ["ctrl x"]) with false.
    change (key_in "page down" ["tab"; "left"; "right"]) with false.
    change (key_in "page down" ["down"]) with false.
    change (key_in "page down" ["up"; "page up"; "page down"]) with true.
    cbv zeta. rewrite andb_false_r. apply Hlb. exact Hrows.
Qed.

(** C8: the code at the failing input.  With no notes at all, and again
    with notes none of which matches the typed ["xyz"], the list is empty,
    no row has the focus, and each of [down], [up], [page up] and
    [page down] raises [AttributeError] from [self.focus.note]. *)
Theorem navigation_on_empty_list mv (size : nat * nat) :
  display_list empty_frame = [] /\
  display_list scenario_b = [] /\
  (exists st', keypress mv size "down" empty_frame = Raise AttributeError st') /\
  (exists st', keypress mv size "up" empty_frame = Raise AttributeError st') /\
  (exists st', keypress mv size "page up" empty_frame = Raise AttributeError st') /\
  (exists st', keypress mv size "page down" empty_frame = Raise AttributeError st') /\
  (exists st', keypress mv size "down" scenario_b = Raise AttributeError st') /\
  (exists st', keypress mv size "up" scenario_b = Raise AttributeError st').
Proof.
  destruct (keypress_navigation mv size empty_frame eq_refl) as (H1 & H2 & H3 & H4).
  destruct (keypress_navigation mv size scenario_b eq_refl) as (H5 & H6 & _).
  repeat split; assumption || reflexivity.
Qed.

(** * Further properties of the module *)

(** ** [focus_note] *)

Lemma note_eqb_path (a b : Note) : note_eqb a b = true <-> abspath a = abspath b.
Proof. unfold note_eqb. apply String.eqb_eq. Qed.

Lemma index_of_note_spec (n : Note) (l : list NoteWidget) :
  match index_of_note n l with
  | Some i => first_row_of n l i
  | None => forall w, In w l -> abspath (note w) <> abspath n
  end.
Proof.
  induction l as [|w l IH]; cbn [index_of_note]; [intros w []|].
  destruct (note_eqb (note w) n) eqn:Hw.
  - apply note_eqb_path in Hw. split; [exists w; auto|]. intros j w' Hj. lia.
  - assert (Hne : abspath (note w) <> abspath n).
    { intros H. apply note_eqb_path in H. congruence. }
    destruct (index_of_note n l) as [i|]; cbn [option_map].
    + destruct IH as [[w' [Hl Hp]] Hfirst]. split; [exists w'; auto|].
      intros [|j] w'' Hj Hl'; cbn in Hl'.
      * injection Hl' as <-. exact Hne.
      * apply (Hfirst j w''); [lia|exact Hl'].
    + intros w' [<-|Hin]; [exact Hne|apply IH, Hin].
Qed.

(** X1.  [focus_note] moves the focus to the first row whose note has the
    path of the given note, and leaves the list box as it is when no row
    has it; the rows and the cache are never touched. *)
Theorem focus_note_first_row (n : Note) (lb : NoteFilterListBox) :
  ((exists w, In w (list_walker lb) /\ abspath (note w) = abspath n) ->
   first_row_of n (list_walker lb) (focus_position (focus_note n lb))) /\
  ((forall w, In w (list_walker lb) -> abspath (note w) <> abspath n) ->
   focus_note n lb = lb) /\
  list_walker (focus_note n lb) = list_walker lb /\
  widgets (focus_note n lb) = widgets lb.
Proof.
  unfold focus_note. pose proof (index_of_note_spec n (list_walker lb)) as H.
  destruct (index_of_note n (list_walker lb)) as [i|]; cbn.
  - split; [intros _; exact H|]. split; [|split; reflexivity].
    intros Hnone. destruct H as [[w [Hw Hp]] _].
    exfalso. apply (Hnone w); [|exact Hp].
    apply list_elem_of_In. eapply list_elem_of_lookup_2. exact Hw.
  - split; [|split; [|split]; reflexivity].
    intros [w [Hw Hp]]. exfalso. exact (H w Hw Hp).
Qed.

Lemma focus_note_first_row_witness :
  first_row_of grocery_list (list_walker (list_box example_frame))
    (focus_position (focus_note grocery_list (list_box example_frame))).
Proof.
  apply (focus_note_first_row grocery_list (list_box example_frame)).
  eexists. split; [left; reflexivity|reflexivity].
Defined.

(** ** The cache of a list box that starts empty *)

Lemma filter_step_wf (ws : gmap string NoteWidget) (made : nat)
  (acc : list NoteWidget) (n : Note) :
  cache_wf {| lb_fake_focus := false; list_walker := []; focus_position := 0;
              widgets := ws; created := made |} ->
  cache_wf {| lb_fake_focus := false; list_walker := []; focus_position := 0;
              widgets := (filter_step (ws, made, acc) n).1.1;
              created := (filter_step (ws, made, acc) n).1.2 |}.
Proof.
  intros [Hkey Hinj]. cbn [widgets created] in *.
  unfold filter_step. destruct (ws !! abspath n) as [w|] eqn:Hlook;
    cbn [fst snd]; split; cbn [widgets created]; auto.
  - intros p w Hw. destruct (decide (abspath n = p)) as [<-|Hne].
    + rewrite lookup_insert_eq in Hw. injection Hw as <-. cbn. split; [auto|lia].
    + rewrite lookup_insert_ne in Hw by exact Hne.
      destruct (Hkey p w Hw). split; [auto|lia].
  - intros p q w w' Hw Hw' Hid.
    destruct (decide (abspath n = p)) as [<-|Hp];
      destruct (decide (abspath n = q)) as [<-|Hq]; auto.
    + rewrite lookup_insert_eq in Hw. injection Hw as <-.
      rewrite lookup_insert_ne in Hw' by exact Hq.
      destruct (Hkey q w' Hw') as [_ Hlt]. cbn in Hid. lia.
    + rewrite lookup_insert_eq in Hw'. injection Hw' as <-.
      rewrite lookup_insert_ne in Hw by exact Hp.
      destruct (Hkey p w Hw) as [_ Hlt]. cbn in Hid. lia.
    + rewrite lookup_insert_ne in Hw by exact Hp.
      rewrite lookup_insert_ne in Hw' by exact Hq. eauto.
Qed.

Lemma filter_loop_wf (l : list Note) :
  forall (ws : gmap string NoteWidget) (made : nat) (acc : list NoteWidget),
  cache_wf {| lb_fake_focus := false; list_walker := []; focus_position := 0;
              widgets := ws; created := made |} ->
  cache_wf {| lb_fake_focus := false; list_walker := []; focus_position := 0;
              widgets := (fold_left filter_step l (ws, made, acc)).1.1;
              created := (fold_left filter_step l (ws, made, acc)).1.2 |}.
Proof.
  induction l as [|n l IH]; intros ws made acc Hwf; [exact Hwf|].
  cbn [fold_left].
  pose proof (filter_step_wf ws made acc n Hwf) as Hstep.
  destruct (filter_step (ws, made, acc) n) as [[ws1 made1] acc1].
  apply IH. exact Hstep.
Qed.

Lemma NoteFilterListBox_filter_wf (l : list Note) (lb : NoteFilterListBox) :
  cache_wf lb -> cache_wf (NoteFilterListBox_filter l lb).
Proof.
  intros Hwf. unfold NoteFilterListBox_filter.
  pose proof (filter_loop_wf l (widgets lb) (created lb) [] Hwf) as H.
  destruct (fold_left filter_step l (widgets lb, created lb, []))
    as [[ws made] rows].
  exact H.
Qed.

(** X2.  In a list box that starts with an empty cache, after any run of
    filter calls every cached widget is filed under the path of its own
    note, and no widget object is filed under two paths. *)
Theorem widget_cache_keys (ls : list (list Note)) :
  cache_wf (filter_calls ls NoteFilterListBox_init).
Proof.
  assert (H : forall lb, cache_wf lb -> cache_wf (filter_calls ls lb)).
  { induction ls as [|l ls IH]; intros lb Hwf; [exact Hwf|].
    change (filter_calls (l :: ls) lb)
      with (filter_calls ls (NoteFilterListBox_filter l lb)).
    apply IH, NoteFilterListBox_filter_wf, Hwf. }
  apply H. split.
  - intros p w Hw. cbn in Hw. rewrite lookup_empty in Hw. discriminate.
  - intros p q w w' Hw. cbn in Hw. rewrite lookup_empty in Hw. discriminate.
Qed.

(** ** Filtering twice *)

Lemma filter_loop_hit (ws : gmap string NoteWidget) (made : nat)
  (rows : list NoteWidget) (l : list Note) :
  Forall2 (fun w n => ws !! abspath n = Some w) rows l ->
  forall acc,
    fold_left filter_step l (ws, made, acc) = (ws, made, (acc ++ rows)%list).
Proof.
  induction 1 as [|w n rows l Hw _ IH]; intros acc; cbn [fold_left].
  - rewrite app_nil_r. reflexivity.
  - unfold filter_step at 2. rewrite Hw, IH, <- app_assoc. reflexivity.
Qed.

Lemma NoteFilterListBox_filter_hit (l : list Note) (rows : list NoteWidget)
  (lb : NoteFilterListBox) :
  Forall2 (fun w n => widgets lb !! abspath n = Some w) rows l ->
  NoteFilterListBox_filter l lb =
  {| lb_fake_focus := lb_fake_focus lb; list_walker := rows;
     focus_position := 0; widgets := widgets lb; created := created lb |}.
Proof.
  intros H. unfold NoteFilterListBox_filter.
  rewrite (filter_loop_hit _ _ _ _ H). reflexivity.
Qed.

(** A second call on a list box that has the cache the first call left
    gives the rows of the first call again. *)
Lemma NoteFilterListBox_filter_again (l : list Note)
  (lb lb' : NoteFilterListBox) :
  widgets lb' = widgets (NoteFilterListBox_filter l lb) ->
  created lb' = created (NoteFilterListBox_filter l lb) ->
  NoteFilterListBox_filter l lb' =
  set_lb_fake_focus (lb_fake_focus lb') (NoteFilterListBox_filter l lb).
Proof.
  intros Hws Hmade.
  destruct (NoteFilterListBox_filter_spec l lb) as (_ & Hrows & _).
  rewrite <- Hws in Hrows.
  rewrite (NoteFilterListBox_filter_hit _ _ _ Hrows), Hws, Hmade.
  unfold NoteFilterListBox_filter.
  destruct (fold_left filter_step l (widgets lb, created lb, []))
    as [[ws made] rows].
  reflexivity.
Qed.

Lemma NoteFilterListBox_filter_fake (l : list Note) (lb : NoteFilterListBox) :
  set_lb_fake_focus (lb_fake_focus (NoteFilterListBox_filter l lb))
    (NoteFilterListBox_filter l lb) = NoteFilterListBox_filter l lb.
Proof.
  unfold NoteFilterListBox_filter.
  destruct (fold_left filter_step l (widgets lb, created lb, []))
    as [[ws made] rows].
  reflexivity.
Qed.

(** X3.  A second filter pass on the same query changes nothing but the
    trace: the list box (rows, focus, cache and widget count), the search
    box, the selection, the body and the notebook are those the first pass
    left, and the notebook has been searched once more. *)
Theorem filter_twice `{T : Tables} (q : string) (st : MainFrame) :
  suppress_filter st = false ->
  let st1 := filter q st in
  let st2 := filter q st1 in
  list_box st2 = list_box st1 /\
  search_box st2 = search_box st1 /\
  _selected_note st2 = _selected_note st1 /\
  body st2 = body st1 /\
  notebook st2 = notebook st1 /\
  trace st2 = (trace st1 ++ [Search q])%list.
Proof.
  intros Hf. cbv zeta.
  assert (E1 : filter q st =
               set_selected_note (head (autocompletable_matches (notebook st) q))
                 (filter_list q st))
    by (unfold filter; rewrite Hf; reflexivity).
  destruct (filter_fields q st) as (Hf1 & Hs1 & Hnb1 & _).
  assert (E2 : filter q (filter q st) =
               set_selected_note (head (autocompletable_matches (notebook st) q))
                 (filter_list q (filter q st)))
    by (unfold filter at 1; rewrite Hf1, Hf, Hnb1; reflexivity).
  rewrite E2, E1. clear E1 E2 Hf1 Hs1 Hnb1.
  destruct (suppress_focus st) eqn:Hs.
  - rewrite (set_selected_note_suppressed _ (filter_list q st)) by exact Hs.
    rewrite set_selected_note_suppressed by exact Hs.
    frame_simpl.
    rewrite (NoteFilterListBox_filter_again _ (list_box st)) by reflexivity.
    rewrite NoteFilterListBox_filter_fake.
    repeat split; reflexivity.
  - unfold set_selected_note. frame_simpl. rewrite !Hs.
    destruct (head (autocompletable_matches (notebook st) q)) as [nt|];
      frame_simpl; rewrite ?Hs; frame_simpl.
    + rewrite (NoteFilterListBox_filter_again _ (list_box st)
                 (focus_note nt (set_lb_fake_focus true _))).
      * repeat split; reflexivity.
      * unfold focus_note. cbn. destruct (index_of_note nt _); reflexivity.
      * unfold focus_note. cbn. destruct (index_of_note nt _); reflexivity.
    + rewrite (NoteFilterListBox_filter_again _ (list_box st)
                 (set_lb_fake_focus false _)) by reflexivity.
      repeat split; reflexivity.
Qed.

Lemma filter_twice_witness :
  list_box (filter "Gro" (filter "Gro" example_frame)) =
  list_box (filter "Gro" example_frame).
Proof. apply (filter_twice "Gro" example_frame eq_refl). Defined.

(** ** What the search box shows while a note is suggested *)

(** X4.  While a suggestion is set and the typed text, not empty, is the
    start of the suggested title when case is ignored, the search box shows
    the typed text exactly as it was typed, followed by the characters of
    the title from the position where the typed text ends; the text shown is
    as long as the longer of the two.  With nothing typed, or a typed text
    that is not the start of the title, it shows the title. *)
Theorem get_text_shows_title `{T : Tables} (w : AutocompleteWidget) (a : string) :
  autocomplete_text w = Some a -> a <> "" ->
  (edit_text w <> "" -> starts_ci a (edit_text w) = true ->
   str_take (String.length (edit_text w)) (fst (get_text w)) = edit_text w /\
   str_drop (String.length (edit_text w)) (fst (get_text w)) =
     str_drop (String.length (edit_text w)) a /\
   String.length (fst (get_text w)) =
     Nat.max (String.length (edit_text w)) (String.length a)) /\
  (edit_text w = "" \/ starts_ci a (edit_text w) = false ->
   fst (get_text w) = a).
Proof.
  intros Ha Hne. split.
  - intros He Hs. rewrite (get_text_completed w a Ha He Hs).
    rewrite str_take_append, str_drop_append, append_length, str_drop_length.
    repeat split. lia.
  - intros Hcase. unfold get_text. rewrite Ha. cbn [opt_bool].
    apply str_bool_true in Hne. rewrite Hne, andb_false_r. cbn [negb].
    destruct Hcase as [He|Hs].
    + rewrite He. reflexivity.
    + unfold starts_ci in Hs. rewrite Hs, andb_false_r. reflexivity.
Qed.

Lemma get_text_shows_title_witness :
  str_take 3 (fst (get_text (search_box scenario_c))) = "Gro" /\
  String.length (fst (get_text (search_box scenario_c))) = 12%nat.
Proof.
  destruct (get_text_shows_title (search_box scenario_c) "Grocery List")
    as [Hshown _]; [reflexivity|discriminate|].
  destruct Hshown as (Htake & _ & Hlen); [discriminate|reflexivity|].
  split; [exact Htake|exact Hlen].
Defined.

(** ** Properties kept by every key press

    [keypress] is put together from a handful of updates of the frame.  A
    property of frames that each of these updates keeps is kept by
    [keypress], whether the handler returns or raises. *)

Lemma with_list_box_same (st : MainFrame) : with_list_box (list_box st) st = st.
Proof. destruct st; reflexivity. Qed.

Section Preservation.
Context `{T : Tables}.
Variable mv : nat * nat -> string -> list NoteWidget -> nat -> option string * nat.
Variable Inv : MainFrame -> Prop.

(** [OK n st]: the setter of the selection may be called with [n] on [st].
    The handlers call it with nothing, with the first autocomplete
    candidate after the list has been filtered, and with the note of a row
    of the list. *)
Variable OK : option Note -> MainFrame -> Prop.
Hypothesis OK_none : forall st, OK None st.
Hypothesis OK_head :
  forall q st,
    Inv st ->
    OK (head (autocompletable_matches (notebook st) q)) (filter_list q st).
Hypothesis OK_row :
  forall w st,
    Inv st -> In w (list_walker (list_box st)) -> OK (Some (note w)) st.

Hypothesis Inv_flags : forall a b st, Inv st -> Inv (with_flags a b st).
Hypothesis Inv_select :
  forall n st, OK n st -> Inv st -> Inv (set_selected_note n st).
Hypothesis Inv_filter_list : forall q st, Inv st -> Inv (filter_list q st).
Hypothesis Inv_box :
  forall w st,
    autocomplete_text w = autocomplete_text (search_box st) \/
    autocomplete_text w = None ->
    Inv st -> Inv (with_search_box w st).
Hypothesis Inv_list :
  forall lb st,
    list_walker lb = list_walker (list_box st) ->
    widgets lb = widgets (list_box st) ->
    created lb = created (list_box st) ->
    Inv st -> Inv (with_list_box lb st).

Lemma Inv_filter (q : string) (st : MainFrame) : Inv st -> Inv (filter q st).
Proof.
  intros H. unfold filter. destruct (suppress_filter st); [exact H|].
  apply Inv_select; [apply OK_head, H|apply Inv_filter_list, H].
Qed.

Lemma Inv_set_edit_text (text : string) (st : MainFrame) :
  Inv st -> Inv (search_box_set_edit_text text st).
Proof.
  intros H. unfold search_box_set_edit_text, set_edit_text, update_widget.
  apply Inv_box; [left; reflexivity|]. apply Inv_filter, H.
Qed.

Lemma Inv_consume (st : MainFrame) :
  Inv st -> Inv (state_of (search_box_consume st)).
Proof.
  intros H. unfold search_box_consume, consume.
  destruct (autocomplete_text (search_box st)) as [a|]; [|exact H].
  destruct (str_bool a && _); [|exact H].
  fold (search_box_set_edit_text a st).
  pose proof (Inv_set_edit_text a st H) as H1.
  destruct (autocomplete_text (search_box (search_box_set_edit_text a st)));
    cbn [state_of]; [|exact H1].
  unfold update_widget. apply Inv_box; [right; reflexivity|].
  unfold move_cursor_to_coords, update_widget.
  apply Inv_box; [left; reflexivity|exact H1].
Qed.

Lemma Inv_Edit_keypress (key : string) (st : MainFrame) :
  Inv st -> Inv (snd (search_box_keypress key st)).
Proof.
  intros H. unfold search_box_keypress, Edit_keypress.
  fold search_box_set_edit_text. unfold update_widget.
  repeat match goal with
         | |- context [if ?b then _ else _] => destruct b
         end; cbn [snd]; auto;
    try (apply Inv_box; [left; reflexivity|]);
    unfold on_search_box_changed; auto using Inv_set_edit_text, Inv_filter.
Qed.

Lemma Inv_NoteFilterListBox_keypress (size : nat * nat) (key : string)
  (st : MainFrame) :
  Inv st -> Inv (state_of (NoteFilterListBox_keypress mv size key st)).
Proof.
  intros H. unfold NoteFilterListBox_keypress, ListBox_keypress.
  assert (H1 : forall lb r,
             (r, lb) = match focus (list_box st) with
                       | None => (Some key, list_box st)
                       | Some _ =>
                           let '(result, pos) :=
                             mv size key (list_walker (list_box st))
                                (focus_position (list_box st)) in
                           (result,
                            set_focus (Nat.min pos
                                         (List.length (list_walker (list_box st)) - 1))
                                      (list_box st))
                       end ->
             Inv (with_list_box lb st)).
  { intros lb r. destruct (focus (list_box st)).
    - destruct (mv _ _ _ _) as [result pos]. intros [= -> ->].
      apply Inv_list; auto.
    - intros [= -> ->]. rewrite with_list_box_same. exact H. }
  destruct (match focus (list_box st) with None => _ | Some _ => _ end)
    as [result lb] eqn:Hm.
  specialize (H1 lb result eq_refl).
  unfold ListBox_selected_note.
  destruct (focus (list_box (with_list_box lb st))) as [w|] eqn:Hw;
    cbn [bind state_of]; [|exact H1].
  apply Inv_select; [|exact H1]. apply OK_row; [exact H1|].
  apply list_elem_of_In. eapply list_elem_of_lookup_2. exact Hw.
Qed.

Lemma keypress_keeps_but_enter (size : nat * nat) (key : string)
  (st : MainFrame) :
  key_in key ["enter"] = false ->
  Inv st -> Inv (state_of (keypress mv size key st)).
Proof.
  intros Hkey H. unfold keypress. cbv zeta. rewrite Hkey.
  pose proof (Inv_flags false false st H) as H0.
  destruct (key_in key ["esc"; "ctrl d"]).
  { destruct (_selected_note _); cbn [state_of].
    - apply Inv_select; [apply OK_none|exact H0].
    - destruct (str_bool _); cbn [state_of]; [|exact H0].
      apply Inv_set_edit_text, H0. }
  destruct (key_in key ["ctrl x"]); [exact H0|].
  destruct (_ && key_in key ["tab"; "left"; "right"]).
  { pose proof (Inv_consume _ H0) as Hc.
    destruct (search_box_consume (with_flags false false st)) as [[|] s|e s];
      cbn [bind state_of] in *; auto.
    pose proof (Inv_Edit_keypress key s Hc) as Hk.
    destruct (search_box_keypress key s) as [r s']. exact Hk. }
  destruct (key_in key ["down"]).
  { destruct (negb _).
    - assert (H1 : Inv (with_list_box
                          (set_lb_fake_focus true
                             (list_box (with_flags false false st)))
                          (with_flags false false st)))
        by (apply Inv_list; auto).
      unfold ListBox_selected_note.
      destruct (focus _) as [w|] eqn:Hw; cbn [bind state_of]; [|exact H1].
      apply Inv_select; [|exact H1]. apply OK_row; [exact H1|].
      apply list_elem_of_In. eapply list_elem_of_lookup_2. exact Hw.
    - apply Inv_NoteFilterListBox_keypress, H0. }
  destruct (key_in key ["up"; "page up"; "page down"]).
  { apply Inv_NoteFilterListBox_keypress, H0. }
  destruct (key_in key ["backspace"]).
  { match goal with
    | |- context [bind ?m _] => assert (Hm : Inv (state_of m))
    end.
    { destruct (match _selected_note _ with Some _ => _ | None => _ end).
      - apply Inv_consume, H0.
      - cbn [state_of]. apply Inv_select; [apply OK_none|exact H0]. }
    match goal with
    | |- context [bind ?m _] => destruct m as [b s|e s]
    end; cbn [bind state_of] in *; auto.
    pose proof (Inv_Edit_keypress key (with_flags (suppress_filter s) true s)
                  (Inv_flags _ _ _ Hm)) as Hk.
    destruct (search_box_keypress key _) as [r s']. exact Hk. }
  pose proof (Inv_Edit_keypress key _ H0) as Hk.
  destruct (search_box_keypress key _) as [r s']. exact Hk.
Qed.

Hypothesis Inv_log : forall e st, Inv st -> Inv (log e st).
Hypothesis Inv_notebook :
  forall t n nb' st,
    add_new (notebook st) t = Added n nb' ->
    Inv st -> Inv (with_notebook nb' st).

Lemma keypress_keeps (size : nat * nat) (key : string) (st : MainFrame) :
  Inv st -> Inv (state_of (keypress mv size key st)).
Proof.
  intros H. destruct (key_in key ["enter"]) eqn:Hkey;
    [|apply keypress_keeps_but_enter; assumption].
  unfold keypress. cbv zeta. rewrite Hkey.
  pose proof (Inv_flags false false st H) as H0.
  destruct (key_in key ["esc"; "ctrl d"]).
  { destruct (_selected_note _); cbn [state_of].
    - apply Inv_select; [apply OK_none|exact H0].
    - destruct (str_bool _); cbn [state_of]; [|exact H0].
      apply Inv_set_edit_text, H0. }
  cbn [state_of]. apply Inv_filter, Inv_flags.
  destruct (_selected_note _); [apply Inv_log, H0|].
  destruct (str_bool _); [|exact H0].
  destruct (add_new _ _) eqn:Hadd; unfold system; auto.
  apply Inv_log. eapply Inv_notebook; [|apply Inv_log, H0]. exact Hadd.
Qed.

Lemma keypresses_keep (size : nat * nat) (keys : list string) (st : MainFrame) :
  Inv st -> Inv (state_of (keypresses mv size keys st)).
Proof.
  unfold keypresses.
  assert (G : forall o : outcome MainFrame (option string),
             Inv (state_of o) ->
             Inv (state_of
                    (fold_left
                       (fun o key => bind o (fun _ s => keypress mv size key s))
                       keys o))).
  { induction keys as [|key keys IH]; intros o Ho; [exact Ho|].
    cbn [fold_left]. apply IH.
    destruct o as [r s|e s]; cbn [bind state_of] in *; [|exact Ho].
    apply keypress_keeps, Ho. }
  intros H. apply G. exact H.
Qed.

(** Drawing the screen changes nothing but the view flag of the search box,
    so it keeps the property too, and so does a session of keys and
    redraws. *)
Lemma Inv_render (st : MainFrame) : Inv st -> Inv (MainFrame_render st).
Proof. intros H. apply Inv_box; [left; reflexivity|exact H]. Qed.

Lemma session_keeps (size : nat * nat) (events : list event) (st : MainFrame) :
  Inv st -> Inv (state_of (session mv size events st)).
Proof.
  unfold session.
  assert (G : forall o : outcome MainFrame (option string),
             Inv (state_of o) ->
             Inv (state_of
                    (fold_left
                       (fun o e => bind o (fun _ s => handle_event mv size e s))
                       events o))).
  { induction events as [|e events IH]; intros o Ho; [exact Ho|].
    cbn [fold_left]. apply IH.
    destruct o as [r s|x s]; cbn [bind state_of] in *; [|exact Ho].
    destruct e as [key|]; cbn [handle_event state_of].
    - apply keypress_keeps, Ho.
    - apply Inv_render, Ho. }
  intros H. apply G. exact H.
Qed.
End Preservation.

Lemma set_selected_note_frame (n : option Note) (st : MainFrame) :
  notebook (set_selected_note n st) = notebook st /\
  editor (set_selected_note n st) = editor st /\
  widgets (list_box (set_selected_note n st)) = widgets (list_box st) /\
  created (list_box (set_selected_note n st)) = created (list_box st).
Proof.
  unfold set_selected_note. destruct (suppress_focus st); [auto|].
  destruct n as [nt|]; frame_simpl; [|auto].
  unfold focus_note. cbn.
  destruct (index_of_note nt (list_walker (list_box st))); auto.
Qed.

Lemma suggestion_ok_select (n : option Note) (st : MainFrame) :
  suggestion_ok st -> suggestion_ok (set_selected_note n st).
Proof.
  intros H. unfold set_selected_note. destruct (suppress_focus st); [exact H|].
  destruct n as [nt|]; intros a Ha; frame_simpl.
  - injection Ha as <-. eauto.
  - discriminate.
Qed.

Lemma suggestion_ok_box (w : AutocompleteWidget) (st : MainFrame) :
  autocomplete_text w = autocomplete_text (search_box st) \/
  autocomplete_text w = None ->
  suggestion_ok st -> suggestion_ok (with_search_box w st).
Proof.
  intros [Hw|Hw] H a Ha; frame_simpl; rewrite Hw in Ha;
    [exact (H a Ha)|discriminate].
Qed.

(** X5.  From start-up on, after any run of keys (whether the last one
    returned or raised), a suggestion in the search box is the title of the
    note that is selected: the search box never suggests a title without a
    selected note of that title. *)
Theorem suggestion_is_selected_title `{T : Tables} mv (size : nat * nat)
  (keys : list string) (ed : string) (nb : PlainTextNoteBook) :
  suggestion_ok (state_of (keypresses mv size keys (MainFrame_init ed nb))).
Proof.
  apply (keypresses_keep mv suggestion_ok (fun _ _ => True));
    auto using suggestion_ok_select, suggestion_ok_box.
  unfold MainFrame_init.
  apply (Inv_filter suggestion_ok (fun _ _ => True));
    auto using suggestion_ok_select.
  intros a Ha. discriminate Ha.
Qed.

(** X6.  No key press takes a widget out of the cache or replaces one, and
    from start-up on the cache stays well formed: after any run of keys
    every cached widget is filed under the path of its own note and no
    widget is filed under two paths. *)
Theorem keys_keep_widget_cache `{T : Tables} mv (size : nat * nat) (keys : list string) :
  (forall st,
     widgets (list_box st) ⊆
     widgets (list_box (state_of (keypresses mv size keys st)))) /\
  (forall ed nb,
     cache_wf (list_box (state_of (keypresses mv size keys
                                     (MainFrame_init ed nb))))).
Proof.
  split.
  - intros st.
    apply (keypresses_keep mv
             (fun s => widgets (list_box st) ⊆ widgets (list_box s))
             (fun _ _ => True)); auto.
    + intros n s _ H. rewrite (proj1 (proj2 (proj2 (set_selected_note_frame n s)))).
      exact H.
    + intros q s H. frame_simpl. etransitivity; [exact H|].
      apply NoteFilterListBox_filter_spec.
    + intros lb s _ Hws _ H. frame_simpl. rewrite Hws. exact H.
  - intros ed nb.
    assert (Hsel : forall n s, cache_wf (list_box s) ->
                               cache_wf (list_box (set_selected_note n s))).
    { intros n s [H1 H2].
      destruct (set_selected_note_frame n s) as (_ & _ & Hws & Hc).
      split; rewrite ?Hws, ?Hc; assumption. }
    assert (Hfl : forall q s, cache_wf (list_box s) ->
                              cache_wf (list_box (filter_list q s))).
    { intros q s H. frame_simpl. apply NoteFilterListBox_filter_wf, H. }
    apply (keypresses_keep mv (fun s => cache_wf (list_box s))
             (fun _ _ => True)); auto.
    + intros lb s _ Hws Hc [H1 H2]. frame_simpl.
      split; rewrite ?Hws, ?Hc; assumption.
    + unfold MainFrame_init.
      apply (Inv_filter (fun s => cache_wf (list_box s)) (fun _ _ => True));
        auto.
      split.
      * intros p w Hw. cbn in Hw. rewrite lookup_empty in Hw. discriminate.
      * intros p q w w' Hw. cbn in Hw. rewrite lookup_empty in Hw. discriminate.
Qed.

Lemma quiet_refl (st : MainFrame) : quiet st st.
Proof. repeat split. exists []. cbn. rewrite app_nil_r. reflexivity. Qed.

(** X7.  Only [enter] reaches outside: after any other key (whether the
    handler returned or raised) the notebook and the editor command are the
    same, no note has been added and no editor started; the only calls that
    left the module are notebook searches. *)
Theorem only_enter_leaves_the_module `{T : Tables} mv (size : nat * nat) (key : string)
  (st : MainFrame) :
  key <> "enter" ->
  quiet st (state_of (keypress mv size key st)).
Proof.
  intros Hkey.
  apply (keypress_keeps_but_enter mv (quiet st) (fun _ _ => True));
    try (intros; exact I).
  - intros a b s H. exact H.
  - intros n s _ (Hnb & Hed & qs & Ht).
    destruct (set_selected_note_frame n s) as (Hnb' & Hed' & _).
    destruct (set_selected_note_trace n s) as [Ht' _].
    repeat split; [congruence|congruence|]. exists qs. congruence.
  - intros q s (Hnb & Hed & qs & Ht). unfold quiet. frame_simpl.
    repeat split; auto. exists (qs ++ [q])%list.
    rewrite Ht, map_app, app_assoc. reflexivity.
  - intros w s _ H. exact H.
  - intros lb s _ _ _ H. exact H.
  - unfold key_in. cbn [existsb]. rewrite orb_false_r.
    apply String.eqb_neq, Hkey.
  - apply quiet_refl.
Qed.

Lemma only_enter_leaves_the_module_witness :
  quiet scenario_c (state_of (keypress still (80, 24)%nat "backspace" scenario_c)).
Proof.
  apply (only_enter_leaves_the_module still (80, 24)%nat "backspace" scenario_c).
  discriminate.
Defined.

(** ** Escape *)

Lemma keypress_escape `{T : Tables} mv (size : nat * nat) (key : string) (st : MainFrame) :
  key = "esc" \/ key = "ctrl d" ->
  keypress mv size key st =
  let st := with_flags false false st in
  match _selected_note st with
  | Some _ => Return None (set_selected_note None st)
  | None =>
      if str_bool (edit_text (search_box st))
      then Return None (search_box_set_edit_text "" st)
      else Return None st
  end.
Proof. intros [-> | ->]; reflexivity. Qed.

(** X8.  [esc] (or [ctrl d]) is always swallowed.  With a note selected it
    clears the selection and the suggestion and nothing else: the typed
    text, the rows and the trace stay.  With no note selected and something
    typed it empties the typed text, which runs one filter pass on the
    empty query and selects nothing.  With neither it only resets the two
    flags. *)
Theorem escape_key `{T : Tables} mv (size : nat * nat) (key : string) (st : MainFrame) :
  key = "esc" \/ key = "ctrl d" ->
  exists st',
    keypress mv size key st = Return None st' /\
    _selected_note st' = None /\
    match _selected_note st with
    | Some _ =>
        autocomplete_text (search_box st') = None /\
        edit_text (search_box st') = edit_text (search_box st) /\
        edit_pos (search_box st') = edit_pos (search_box st) /\
        list_walker (list_box st') = list_walker (list_box st) /\
        lb_fake_focus (list_box st') = false /\
        trace st' = trace st
    | None =>
        if str_bool (edit_text (search_box st)) then
          autocomplete_text (search_box st') = None /\
          edit_text (search_box st') = "" /\
          edit_pos (search_box st') = 0%nat /\
          trace st' = (trace st ++ [Search ""])%list
        else
          st' = with_flags false false st
    end.
Proof.
  intros Hkey. rewrite (keypress_escape mv size key st Hkey). cbv zeta.
  frame_simpl.
  destruct (_selected_note st) as [n|] eqn:Hsel.
  - eexists. split; [reflexivity|].
    unfold set_selected_note. frame_simpl. repeat split; reflexivity.
  - destruct (str_bool (edit_text (search_box st))) eqn:He.
    + eexists. split; [reflexivity|].
      destruct (set_edit_text_fields "" (with_flags false false st))
        as (Het & Hp & _ & _ & _ & _ & Hs & Ha & Ht).
      destruct (filter_selection "" (with_flags false false st) eq_refl eq_refl)
        as [Hfs Hfa].
      rewrite Hs, Ha, Het, Hp, Ht, Hfs, Hfa, filter_trace by reflexivity.
      frame_simpl. rewrite Nat.min_0_r. repeat split; reflexivity.
    + eexists. split; [reflexivity|]. frame_simpl. split; [exact Hsel|reflexivity].
Qed.

Lemma escape_key_witness :
  exists st',
    keypress still (80, 24)%nat "esc" scenario_c = Return None st' /\
    _selected_note st' = None.
Proof.
  destruct (escape_key still (80, 24)%nat "esc" scenario_c (or_introl eq_refl))
    as (st' & Hk & Hsel & _).
  exists st'. split; assumption.
Defined.

(** ** Typing *)

Lemma typed_after_not_empty (key : string) (w : AutocompleteWidget) :
  valid_char key = true -> typed_after key w <> "".
Proof.
  intros Hv Hempty. destruct (valid_char_single key Hv) as [c ->].
  assert (Hl : String.length (typed_after (String c "") w) = 0%nat)
    by (rewrite Hempty; reflexivity).
  unfold typed_after in Hl. rewrite !append_length in Hl. cbn in Hl. lia.
Qed.

(** X9.  Typing a character puts it into the typed text at the cursor and
    filters on the new text.  Afterwards either a note is selected, it is a
    newest note of the notebook whose title starts with the typed text
    (ignoring case), and the search box shows the typed text followed by
    the rest of that title; or no title starts with the typed text, nothing
    is selected or suggested, and the search box shows the typed text. *)
Theorem typing_shows_completion `{T : Tables} mv (size : nat * nat) (key : string)
  (st : MainFrame) :
  valid_char key = true ->
  let text := typed_after key (search_box st) in
  exists st',
    keypress mv size key st = Return None st' /\
    edit_text (search_box st') = text /\
    match _selected_note st' with
    | Some m =>
        In m (notes (notebook st)) /\
        starts_ci (title m) text = true /\
        (forall n, In n (notes (notebook st)) ->
                   starts_ci (title n) text = true -> (mtime n <= mtime m)%Z) /\
        autocomplete_text (search_box st') = Some (title m) /\
        fst (get_text (search_box st')) =
          text ++ str_drop (String.length text) (title m)
    | None =>
        (forall n, In n (notes (notebook st)) ->
                   starts_ci (title n) text = false) /\
        autocomplete_text (search_box st') = None /\
        fst (get_text (search_box st')) = text
    end.
Proof.
  intros Hv. cbv zeta.
  pose proof (typed_after_not_empty key (search_box st) Hv) as Hne.
  set (text := typed_after key (search_box st)) in *.
  rewrite (keypress_char mv size key st Hv). fold text.
  eexists. split; [reflexivity|].
  destruct (set_edit_text_fields text (with_flags false false st))
    as (Het & _ & _ & _ & _ & _ & Hs & Ha & _).
  destruct (filter_selection text (with_flags false false st) eq_refl eq_refl)
    as [Hfs Hfa].
  frame_simpl. rewrite Het, Hs, Hfs.
  split; [reflexivity|].
  unfold autocompletable_matches in *.
  pose proof Hne as Hb. apply str_bool_true in Hb. rewrite Hb in *.
  destruct (head (List.filter (fun n => starts_ci (title n) text)
                    (matching_notes (notebook st) text))) as [m|] eqn:Hh.
  - destruct (head_filter_newest _ _ _
                (sort_by_mtime_desc_StronglySorted _) Hh) as (Hin & Hm & Hmax).
    apply In_matching_notes in Hin. destruct Hin as [Hin _].
    split; [exact Hin|]. split; [exact Hm|]. split.
    { intros n Hn Hns. apply Hmax; [apply prefix_match_matches|]; assumption. }
    assert (Hauto : autocomplete_text
                      (set_edit_pos (edit_pos (search_box st) + String.length key)
                         (search_box (search_box_set_edit_text text
                                        (with_flags false false st)))) =
                    Some (title m)).
    { cbn [set_edit_pos autocomplete_text]. rewrite Ha, Hfa. reflexivity. }
    split; [exact Hauto|].
    rewrite (get_text_completed _ (title m) Hauto);
      cbn [set_edit_pos edit_text]; rewrite Het; auto.
  - split.
    { intros n Hn. destruct (starts_ci (title n) text) eqn:Hns; [|reflexivity].
      exfalso.
      destruct (head_filter_Some (fun n => starts_ci (title n) text)
                  (matching_notes (notebook st) text)) as [m Hm].
      - exists n. split; [apply prefix_match_matches|]; assumption.
      - congruence. }
    assert (Hauto : autocomplete_text
                      (set_edit_pos (edit_pos (search_box st) + String.length key)
                         (search_box (search_box_set_edit_text text
                                        (with_flags false false st)))) = None).
    { cbn [set_edit_pos autocomplete_text]. rewrite Ha, Hfa. reflexivity. }
    split; [exact Hauto|].
    unfold get_text. rewrite Hauto. cbn [set_edit_pos edit_text opt_bool].
    rewrite Het, Hb. reflexivity.
Qed.

Lemma typing_shows_completion_witness :
  exists st',
    keypress still (80, 24)%nat "G" example_frame = Return None st' /\
    edit_text (search_box st') = "G".
Proof.
  destruct (typing_shows_completion still (80, 24)%nat "G" example_frame eq_refl)
    as (st' & Hk & He & _).
  exists st'. split; assumption.
Defined.

(** ** Moving through the list *)

Lemma select_row (w : NoteWidget) (st s : MainFrame) :
  suppress_focus s = false ->
  In w (list_walker (list_box st)) ->
  list_walker (list_box s) = list_walker (list_box st) ->
  edit_text (search_box s) = edit_text (search_box st) ->
  edit_pos (search_box s) = edit_pos (search_box st) ->
  notebook s = notebook st -> trace s = trace st ->
  row_selected w st (set_selected_note (Some (note w)) s).
Proof.
  intros Hs Hin Hrows He Hp Hnb Ht.
  unfold row_selected, set_selected_note. rewrite Hs. frame_simpl.
  unfold focus_note. cbn.
  destruct (index_of_note (note w) (list_walker (list_box s))); cbn;
    repeat split; auto.
Qed.

Lemma moved_focus (pos : nat) (lb : NoteFilterListBox) :
  is_Some (focus lb) ->
  exists w,
    focus (set_focus (Nat.min pos (List.length (list_walker lb) - 1)) lb) = Some w /\
    In w (list_walker lb).
Proof.
  intros [w0 Hw0]. unfold focus in *. cbn.
  apply lookup_lt_Some in Hw0.
  destruct (lookup_lt_is_Some_2 (list_walker lb)
              (Nat.min pos (List.length (list_walker lb) - 1))) as [w Hw].
  { change (@length NoteWidget) with (@List.length NoteWidget) in *. lia. }
  exists w. split; [exact Hw|].
  apply list_elem_of_In. eapply list_elem_of_lookup_2. exact Hw.
Qed.

Lemma NoteFilterListBox_keypress_selects mv (size : nat * nat) (key : string)
  (st s : MainFrame) :
  suppress_focus s = false ->
  is_Some (focus (list_box s)) ->
  list_walker (list_box s) = list_walker (list_box st) ->
  edit_text (search_box s) = edit_text (search_box st) ->
  edit_pos (search_box s) = edit_pos (search_box st) ->
  notebook s = notebook st -> trace s = trace st ->
  exists r st' w,
    NoteFilterListBox_keypress mv size key s = Return r st' /\
    row_selected w st st'.
Proof.
  intros Hs Hfocus Hrows He Hp Hnb Ht.
  unfold NoteFilterListBox_keypress, ListBox_keypress.
  pose proof Hfocus as [w0 Hw0]. rewrite Hw0.
  destruct (mv size key (list_walker (list_box s)) (focus_position (list_box s)))
    as [result pos].
  destruct (moved_focus pos (list_box s) Hfocus) as (w & Hw & Hin).
  unfold ListBox_selected_note. frame_simpl. rewrite Hw. cbn [bind].
  exists result. eexists. exists w. split; [reflexivity|].
  unfold on_list_box_changed. apply select_row; auto.
  rewrite <- Hrows. exact Hin.
Qed.

(** X10.  A navigation key ([down], [up], [page up], [page down]) on a list
    that has a focused row returns with the note of one of the rows
    selected and its title suggested, and changes nothing else: the typed
    text, the cursor, the rows, the notebook and the trace stay, so the
    list is not filtered again.  The first [down], with the list not yet
    marked as focused, is swallowed and selects the row that already has
    the focus. *)
Theorem navigation_selects_row `{T : Tables} mv (size : nat * nat) (key : string)
  (st : MainFrame) :
  In key ["down"; "up"; "page up"; "page down"] ->
  is_Some (focus (list_box st)) ->
  exists r st' w,
    keypress mv size key st = Return r st' /\
    row_selected w st st' /\
    (key = "down" -> lb_fake_focus (list_box st) = false ->
     r = None /\ focus (list_box st) = Some w).
Proof.
  intros Hkey Hfocus.
  assert (Hnav : forall s,
             s = with_flags false false st ->
             exists r st' w,
               NoteFilterListBox_keypress mv size key s = Return r st' /\
               row_selected w st st').
  { intros s ->. apply NoteFilterListBox_keypress_selects; auto. }
  destruct Hkey as [<-|[<-|[<-|[<-|[]]]]].
  - unfold keypress.
    change (key_in "down" ["esc"; "ctrl d"]) with false.
    change (key_in "down" ["enter"]) with false.
    change (key_in "down" ["ctrl x"]) with false.
    change (key_in "down" ["tab"; "left"; "right"]) with false.
    change (key_in "down" ["down"]) with true.
    cbv zeta. rewrite andb_false_r. frame_simpl.
    destruct (lb_fake_focus (list_box st)) eqn:Hff; cbn [negb].
    + destruct (Hnav _ eq_refl) as (r & st' & w & Hk & Hsel).
      exists r, st', w. split; [exact Hk|]. split; [exact Hsel|].
      intros H1 H2; first [discriminate H1 | discriminate H2].
    + destruct Hfocus as [w Hw].
      unfold ListBox_selected_note. frame_simpl.
      replace (focus (set_lb_fake_focus true (list_box st))) with (Some w)
        by (rewrite <- Hw; reflexivity).
      cbn [bind]. exists None. eexists. exists w. split; [reflexivity|].
      split; [|auto].
      unfold on_list_box_changed. apply select_row; auto.
      apply list_elem_of_In. eapply list_elem_of_lookup_2. exact Hw.
  - unfold keypress.
    change (key_in "up" ["esc"; "ctrl d"]) with false.
    change (key_in "up" ["enter"]) with false.
    change (key_in "up" ["ctrl x"]) with false.
    change (key_in "up" ["tab"; "left"; "right"]) with false.
    change (key_in "up" ["down"]) with false.
    change (key_in "up" ["up"; "page up"; "page down"]) with true.
    cbv zeta. rewrite andb_false_r.
    destruct (Hnav _ eq_refl) as (r & st' & w & Hk & Hsel).
    exists r, st', w. split; [exact Hk|]. split; [exact Hsel|].
    intros H1 H2; first [discriminate H1 | discriminate H2].
  - unfold keypress.
    change (key_in "page up" ["esc"; "ctrl d"]) with false.
    change (key_in "page up" ["enter"]) with false.
    change (key_in "page up" ["ctrl x"]) with false.
    change (key_in "page up" ["tab"; "left"; "right"]) with false.
    change (key_in "page up" ["down"]) with false.
    change (key_in "page up" ["up"; "page up"; "page down"]) with true.
    cbv zeta. rewrite andb_false_r.
    destruct (Hnav _ eq_refl) as (r & st' & w & Hk & Hsel).
    exists r, st', w. split; [exact Hk|]. split; [exact Hsel|].
    intros H1 H2; first [discriminate H1 | discriminate H2].
  - unfold keypress.
    change (key_in "page down" ["esc"; "ctrl d"]) with false.
    change (key_in "page down" ["enter"]) with false.
    change (key_in "page down" ["ctrl x"]) with false.
    change (key_in "page down" ["tab"; "left"; "right"]) with false.
    change (key_in "page down" ["down"]) with false.
    change (key_in "page down" ["up"; "page up"; "page down"]) with true.
    cbv zeta. rewrite andb_false_r.
    destruct (Hnav _ eq_refl) as (r & st' & w & Hk & Hsel).
    exists r, st', w. split; [exact Hk|]. split; [exact Hsel|].
    intros H1 H2; first [discriminate H1 | discriminate H2].
Qed.

Lemma navigation_selects_row_witness :
  exists r st' w,
    keypress still (80, 24)%nat "down" example_frame = Return r st' /\
    row_selected w example_frame st'.
Proof.
  destruct (navigation_selects_row still (80, 24)%nat "down" example_frame)
    as (r & st' & w & Hk & Hsel & _).
  - left; reflexivity.
  - eexists. reflexivity.
  - exists r, st', w. split; assumption.
Defined.

(** ** The pointer *)

(** X11.  A pointer event on the list box.  On an empty list it raises
    [AttributeError], like the navigation keys.  On a list with a focused
    row it returns, and what it does depends on the re-focus flag, which
    only [keypress] resets: with the flag off the note of a row is selected
    and nothing else changes; with the flag still on (after [enter] or
    [backspace]) the focus of the list moves and the selection, the search
    box and the trace stay as they were. *)
Theorem mouse_event_selects click (size : nat * nat) (event : string)
  (button col row : nat) (st : MainFrame) :
  (list_walker (list_box st) = [] ->
   exists st',
     NoteFilterListBox_mouse_event click size event button col row st =
     Raise AttributeError st') /\
  (is_Some (focus (list_box st)) ->
   exists r st' w,
     NoteFilterListBox_mouse_event click size event button col row st =
     Return r st' /\
     In w (list_walker (list_box st)) /\
     if suppress_focus st then
       focus (list_box st') = Some w /\
       _selected_note st' = _selected_note st /\
       search_box st' = search_box st /\
       trace st' = trace st
     else row_selected w st st').
Proof.
  unfold NoteFilterListBox_mouse_event, ListBox_mouse_event. split.
  - intros Hrows. unfold focus. rewrite Hrows, lookup_nil.
    unfold ListBox_selected_note, focus. frame_simpl.
    rewrite Hrows, lookup_nil. cbn [bind]. eauto.
  - intros Hfocus. pose proof Hfocus as [w0 Hw0]. rewrite Hw0.
    destruct (click size event button col row (list_walker (list_box st))
                (focus_position (list_box st))) as [result pos].
    destruct (moved_focus pos (list_box st) Hfocus) as (w & Hw & Hin).
    unfold ListBox_selected_note. frame_simpl. rewrite Hw. cbn [bind].
    exists result. eexists. exists w. split; [reflexivity|].
    split; [exact Hin|].
    unfold on_list_box_changed.
    destruct (suppress_focus st) eqn:Hs.
    + rewrite set_selected_note_suppressed by exact Hs. frame_simpl. auto.
    + apply select_row; auto.
Qed.

Lemma mouse_event_selects_witness :
  exists r st' w,
    NoteFilterListBox_mouse_event (fun _ _ _ _ row _ _ => (true, row))
      (80, 24)%nat "mouse press" 1 0 1 example_frame = Return r st' /\
    In w (list_walker (list_box example_frame)) /\
    row_selected w example_frame st'.
Proof.
  destruct (mouse_event_selects (fun _ _ _ _ row _ _ => (true, row))
              (80, 24)%nat "mouse press" 1 0 1 example_frame) as [_ H].
  destruct H as (r & st' & w & Hm & Hin & Hsel).
  - eexists. reflexivity.
  - exists r, st', w. split; [exact Hm|]. split; [exact Hin|exact Hsel].
Defined.

(** ** Accept *)





(** ** Backspace with no note selected *)

(** X14.  [backspace] with no note selected is plain editing: the character
    before the cursor goes and the notebook is searched once on the new
    text; with the cursor at the start nothing is deleted, nothing is
    searched and the key is handed back.  Either way nothing is selected or
    suggested afterwards and re-focusing is left suppressed. *)
Theorem backspace_plain `{T : Tables} mv (size : nat * nat) (st : MainFrame) :
  _selected_note st = None ->
  exists r st',
    keypress mv size "backspace" st = Return r st' /\
    edit_text (search_box st') = backspaced (search_box st) /\
    _selected_note st' = None /\
    autocomplete_text (search_box st') = None /\
    suppress_focus st' = true /\
    if (edit_pos (search_box st) =? 0)%nat then
      r = Some "backspace" /\ trace st' = trace st /\
      list_box st' = set_lb_fake_focus false (list_box st)
    else
      r = None /\
      trace st' = (trace st ++ [Search (backspaced (search_box st))])%list.
Proof.
  intros Hsel. rewrite keypress_backspace. cbv zeta. frame_simpl.
  rewrite Hsel. cbn [bind].
  set (st1 := with_flags
                (suppress_filter (set_selected_note None (with_flags false false st)))
                true (set_selected_note None (with_flags false false st))).
  pose proof (backspace_no_focus st1 eq_refl) as Hb.
  rewrite search_box_keypress_backspace in *.
  change (edit_pos (search_box st1)) with (edit_pos (search_box st)) in *.
  change (backspaced (search_box st1)) with (backspaced (search_box st)) in *.
  destruct (edit_pos (search_box st) =? 0)%nat eqn:Hp.
  - destruct Hb as (_ & He & Hs & Ha & Hf & _).
    exists (Some "backspace"), st1. repeat split; auto.
  - destruct Hb as (_ & He & Hs & Ha & Hf & _).
    eexists None, _. split; [reflexivity|].
    repeat split; auto.
Qed.

Lemma backspace_plain_witness :
  exists r st',
    keypress still (80, 24)%nat "backspace" scenario_b = Return r st' /\
    edit_text (search_box st') = "xy".
Proof.
  destruct (backspace_plain still (80, 24)%nat scenario_b eq_refl)
    as (r & st' & Hk & He & _).
  exists r, st'. split; [exact Hk|exact He].
Defined.

(** ** Accepting the suggestion *)

Lemma keypress_forward `{T : Tables} mv (size : nat * nat) (key : string) (st : MainFrame)
  (n : Note) :
  In key ["tab"; "left"; "right"] ->
  _selected_note st = Some n ->
  keypress mv size key st =
  bind (search_box_consume (with_flags false false st))
       (fun consumed st =>
          if consumed then Return None st
          else let '(r, st) := search_box_keypress key st in Return r st).
Proof.
  intros Hkey Hsel. unfold keypress. cbv zeta. frame_simpl. rewrite Hsel.
  destruct Hkey as [<-|[<-|[<-|[]]]]; reflexivity.
Qed.

(** X15.  [tab], [left] or [right] with a note selected whose title is the
    suggestion and is longer than the typed text: the key is swallowed, the
    typed text becomes the whole title, and the suggestion is gone.  The change of the typed text runs one filter pass
    on the title, so the note selected afterwards is the one that pass
    picks, a note whose title starts with the completed title. *)
Theorem forward_key_completes `{T : Tables} mv (size : nat * nat) (key : string)
  (st : MainFrame) (n : Note) :
  In key ["tab"; "left"; "right"] ->
  _selected_note st = Some n ->
  autocomplete_text (search_box st) = Some (title n) ->
  In n (notes (notebook st)) ->
  (String.length (edit_text (search_box st)) < String.length (title n))%nat ->
  exists st' m,
    keypress mv size key st = Return None st' /\
    edit_text (search_box st') = title n /\
    autocomplete_text (search_box st') = None /\
    _selected_note st' = Some m /\
    starts_ci (title m) (title n) = true /\
    notebook st' = notebook st /\
    trace st' = (trace st ++ [Search (title n)])%list.
Proof.
  intros Hkey Hsel Hauto Hin Hlt.
  rewrite (keypress_forward mv size key st n Hkey Hsel).
  destruct (consume_in_frame (with_flags false false st) (title n))
    as (m & st' & Hc & He & Hp & Ha & Hs & Hm & Hnb & _ & Ht); auto.
  { exists n. split; [exact Hin|apply starts_ci_refl]. }
  rewrite Hc. cbn [bind]. exists st', m. repeat split; auto.
Qed.

Lemma forward_key_completes_witness :
  exists st',
    keypress still (80, 24)%nat "tab" scenario_c = Return None st' /\
    edit_text (search_box st') = "Grocery List".
Proof.
  destruct (forward_key_completes still (80, 24)%nat "tab" scenario_c grocery_list)
    as (st' & m & Hk & He & _).
  - left; reflexivity.
  - reflexivity.
  - reflexivity.
  - right; left; reflexivity.
  - vm_compute. lia.
  - exists st'. split; [exact Hk|exact He].
Defined.

(** ** Start-up *)






(** ** [consume] never finds the suggestion gone *)

Lemma add_new_Added (nb nb' : PlainTextNoteBook) (t : string) (n : Note) :
  add_new nb t = Added n nb' -> notes nb' = (notes nb ++ [n])%list.
Proof.
  unfold add_new. destruct (existsb _ _); [discriminate|].
  destruct (_ || _); [discriminate|]. intros [= <- <-]. reflexivity.
Qed.

Lemma notes_known_select (n : option Note) (st : MainFrame) :
  note_of_notebook n st -> notes_known st -> notes_known (set_selected_note n st).
Proof.
  intros Hn (Hsel & Hrows & Hcache).
  destruct (set_selected_note_frame n st) as (Hnb & _ & Hws & _).
  unfold notes_known. rewrite Hnb, Hws, set_selected_note_rows.
  repeat split; auto.
  unfold set_selected_note. destruct (suppress_focus st); [exact Hsel|].
  destruct n as [nt|]; frame_simpl; intros m Hm; [|discriminate].
  apply Hn. exact Hm.
Qed.

Lemma notes_known_filter_list `{T : Tables} (q : string) (st : MainFrame) :
  notes_known st -> notes_known (filter_list q st).
Proof.
  intros (Hsel & Hrows & Hcache). unfold notes_known. frame_simpl.
  destruct (NoteFilterListBox_filter_spec (matching_notes (notebook st) q)
              (list_box st)) as (_ & Hr & _ & _ & Hprov).
  assert (Hc : forall p w,
             widgets (NoteFilterListBox_filter (matching_notes (notebook st) q)
                        (list_box st)) !! p = Some w ->
             In (note w) (notes (notebook st))).
  { intros p w Hw. destruct (Hprov p w Hw) as [Hold|(_ & k & Hk & _ & ->)].
    - eapply Hcache. exact Hold.
    - apply In_matching_notes in Hk. tauto. }
  repeat split; auto.
  intros w Hw. apply list_elem_of_In in Hw.
  destruct (proj1 (list_elem_of_lookup _ _) Hw) as [i Hi].
  destruct (Forall2_lookup_l _ _ _ _ _ Hr Hi) as (k & _ & Hlook).
  eapply Hc. exact Hlook.
Qed.

Lemma notes_known_keypress `{T : Tables} mv (size : nat * nat) (key : string) (st : MainFrame) :
  notes_known st -> notes_known (state_of (keypress mv size key st)).
Proof.
  apply (keypress_keeps mv notes_known note_of_notebook).
  - intros s m Hm. discriminate.
  - intros q s _ m Hm. frame_simpl.
    unfold autocompletable_matches in Hm.
    destruct (str_bool q); [|discriminate].
    assert (Hin : In m (List.filter (fun n => starts_ci (title n) q)
                          (matching_notes (notebook s) q))).
    { destruct (List.filter _ _) as [|x l]; [discriminate|].
      injection Hm as ->. left; reflexivity. }
    apply filter_In in Hin. destruct Hin as [Hin _].
    apply In_matching_notes in Hin. tauto.
  - intros w s (_ & Hrows & _) Hw m [= <-]. apply Hrows, Hw.
  - intros a b s H. exact H.
  - apply notes_known_select.
  - apply notes_known_filter_list.
  - intros w s _ H. exact H.
  - intros lb s Hr Hw _ (Hsel & Hrows & Hcache). unfold notes_known.
    frame_simpl. rewrite Hr, Hw. auto.
  - intros e s H. exact H.
  - intros t n nb' s Hadd (Hsel & Hrows & Hcache). unfold notes_known.
    frame_simpl. rewrite (add_new_Added _ _ _ _ Hadd).
    repeat split; intros; apply in_or_app; left; eauto.
Qed.

Lemma suggestion_ok_keypress `{T : Tables} mv (size : nat * nat) (key : string)
  (st : MainFrame) :
  suggestion_ok st -> suggestion_ok (state_of (keypress mv size key st)).
Proof.
  apply (keypress_keeps mv suggestion_ok (fun _ _ => True));
    auto using suggestion_ok_select, suggestion_ok_box.
Qed.

Lemma consume_returns `{T : Tables} (st : MainFrame) :
  notes_known st -> suggestion_ok st ->
  suppress_filter st = false -> suppress_focus st = false ->
  exists b st', search_box_consume st = Return b st'.
Proof.
  intros (Hsel & _) Hsug Hf Hs.
  destruct (autocomplete_text (search_box st)) as [a|] eqn:Ha.
  - destruct (str_bool a &&
              (String.length (edit_text (search_box st)) <? String.length a)%nat)
      eqn:Hc.
    + apply andb_true_iff in Hc as [_ Hlt]. apply Nat.ltb_lt in Hlt.
      destruct (Hsug a Ha) as (n & Hn & Ht).
      destruct (consume_in_frame st a Hf Hs Ha Hlt) as (m & st' & Hcons & _).
      { exists n. split; [apply Hsel, Hn|]. rewrite Ht. apply starts_ci_refl. }
      eauto.
    + unfold search_box_consume, consume. rewrite Ha, Hc. eauto.
  - unfold search_box_consume, consume. rewrite Ha. eauto.
Qed.

Lemma keypress_no_TypeError `{T : Tables} mv (size : nat * nat) (key : string)
  (st : MainFrame) :
  notes_known st -> suggestion_ok st ->
  ~ raises TypeError (keypress mv size key st).
Proof.
  intros Hk Hsug [s Hraise]. revert Hraise.
  destruct (consume_returns (with_flags false false st) Hk Hsug eq_refl eq_refl)
    as (b & s1 & Hcons).
  assert (Hlb : forall st0,
             NoteFilterListBox_keypress mv size key st0 <> Raise TypeError s).
  { intros st0. unfold NoteFilterListBox_keypress.
    destruct (ListBox_keypress mv size key (list_box st0)) as [r lb].
    unfold ListBox_selected_note. destruct (focus _); cbn [bind]; discriminate. }
  unfold keypress. cbv zeta.
  destruct (key_in key ["esc"; "ctrl d"]).
  { destruct (_selected_note _); [discriminate|].
    destruct (str_bool _); discriminate. }
  destruct (key_in key ["enter"]); [discriminate|].
  destruct (key_in key ["ctrl x"]); [discriminate|].
  destruct (_ && key_in key ["tab"; "left"; "right"]).
  { rewrite Hcons. cbn [bind]. destruct b; [discriminate|].
    destruct (search_box_keypress key s1). discriminate. }
  destruct (key_in key ["down"]).
  { destruct (negb _); [|apply Hlb].
    unfold ListBox_selected_note. destruct (focus _); cbn [bind]; discriminate. }
  destruct (key_in key ["up"; "page up"; "page down"]); [apply Hlb|].
  destruct (key_in key ["backspace"]).
  { destruct (match _selected_note _ with Some _ => _ | None => _ end).
    - rewrite Hcons. cbn [bind].
      destruct (search_box_keypress key _). discriminate.
    - cbn [bind]. destruct (search_box_keypress key _). discriminate. }
  destruct (search_box_keypress key _). discriminate.
Qed.

(** X17.  From start-up on, no run of keys ends in [TypeError]: whenever
    [consume] replaces the typed text by the suggestion, the filter pass
    this triggers selects a note again, so the suggestion is still there
    when its length is taken.  This rests on two facts that hold all
    along: the selected note, the notes of the rows and the notes of the
    cached widgets are notes of the notebook, and a suggestion is the
    title of the selected note. *)
Theorem keys_never_raise_TypeError `{T : Tables} mv (size : nat * nat) (keys : list string)
  (ed : string) (nb : PlainTextNoteBook) :
  ~ raises TypeError (keypresses mv size keys (MainFrame_init ed nb)) /\
  notes_known (state_of (keypresses mv size keys (MainFrame_init ed nb))).
Proof.
  unfold keypresses.
  assert (G : forall o : outcome MainFrame (option string),
             notes_known (state_of o) -> suggestion_ok (state_of o) ->
             ~ raises TypeError o ->
             let o' := fold_left
                         (fun o key => bind o (fun _ s => keypress mv size key s))
                         keys o in
             ~ raises TypeError o' /\ notes_known (state_of o')).
  { induction keys as [|key keys IH]; intros o Hk Hsug Hno; cbv zeta; [auto|].
    cbn [fold_left]. apply IH; destruct o as [r s|e s]; cbn [bind state_of] in *;
      auto using notes_known_keypress, suggestion_ok_keypress,
                 keypress_no_TypeError. }
  apply G.
  - unfold MainFrame_init.
    apply (Inv_filter notes_known note_of_notebook).
    + intros q s _ m Hm. frame_simpl.
      unfold autocompletable_matches in Hm.
      destruct (str_bool q); [|discriminate].
      assert (Hin : In m (List.filter (fun n => starts_ci (title n) q)
                            (matching_notes (notebook s) q))).
      { destruct (List.filter _ _) as [|x l]; [discriminate|].
        injection Hm as ->. left; reflexivity. }
      apply filter_In in Hin. destruct Hin as [Hin _].
      apply In_matching_notes in Hin. tauto.
    + apply notes_known_select.
    + apply notes_known_filter_list.
    + repeat split.
      * intros n Hn. discriminate.
      * intros w [].
      * intros p w Hw. cbn in Hw. rewrite lookup_empty in Hw. discriminate.
  - unfold MainFrame_init.
    apply (Inv_filter suggestion_ok (fun _ _ => True));
      auto using suggestion_ok_select.
    intros a Ha. discriminate Ha.
  - intros [s Hs]. discriminate Hs.
Qed.

(** ** Sessions with redraws

    The two facts also hold all along a session in which the screen is
    drawn between keys, and such a session does not end in [TypeError]
    either. *)

Lemma keypresses_session `{T : Tables} mv (size : nat * nat) (keys : list string)
  (st : MainFrame) :
  keypresses mv size keys st = session mv size (map Key keys) st.
Proof.
  unfold keypresses, session. generalize (Return (S := MainFrame) (@None string) st).
  induction keys as [|key keys IH]; intros o; [reflexivity|].
  cbn [map fold_left]. rewrite IH. reflexivity.
Qed.

Lemma notes_known_render (st : MainFrame) :
  notes_known st -> notes_known (MainFrame_render st).
Proof. intros H. exact H. Qed.

Lemma suggestion_ok_render (st : MainFrame) :
  suggestion_ok st -> suggestion_ok (MainFrame_render st).
Proof. intros H. exact H. Qed.

Lemma session_no_TypeError `{T : Tables} mv (size : nat * nat)
  (events : list event) (st : MainFrame) :
  notes_known st -> suggestion_ok st ->
  ~ raises TypeError (session mv size events st) /\
  notes_known (state_of (session mv size events st)) /\
  suggestion_ok (state_of (session mv size events st)).
Proof.
  unfold session.
  assert (G : forall o : outcome MainFrame (option string),
             notes_known (state_of o) -> suggestion_ok (state_of o) ->
             ~ raises TypeError o ->
             let o' := fold_left
                         (fun o e => bind o (fun _ s => handle_event mv size e s))
                         events o in
             ~ raises TypeError o' /\ notes_known (state_of o') /\
             suggestion_ok (state_of o')).
  { induction events as [|e events IH]; intros o Hk Hsug Hno; cbv zeta; [auto|].
    cbn [fold_left]. apply IH; destruct o as [r s|x s]; cbn [bind state_of] in *;
      auto; destruct e as [key|]; cbn [handle_event state_of];
      auto using notes_known_keypress, suggestion_ok_keypress,
                 keypress_no_TypeError, notes_known_render, suggestion_ok_render.
    intros [s' Hs']. discriminate Hs'. }
  intros Hk Hsug. apply G; auto. intros [s Hs]. discriminate Hs.
Qed.

Lemma MainFrame_init_known `{T : Tables} (ed : string) (nb : PlainTextNoteBook) :
  notes_known (MainFrame_init ed nb) /\ suggestion_ok (MainFrame_init ed nb).
Proof.
  split.
  - unfold MainFrame_init.
    apply (Inv_filter notes_known note_of_notebook).
    + intros q s _ m Hm. frame_simpl.
      unfold autocompletable_matches in Hm.
      destruct (str_bool q); [|discriminate].
      assert (Hin : In m (List.filter (fun n => starts_ci (title n) q)
                            (matching_notes (notebook s) q))).
      { destruct (List.filter _ _) as [|x l]; [discriminate|].
        injection Hm as ->. left; reflexivity. }
      apply filter_In in Hin. destruct Hin as [Hin _].
      apply In_matching_notes in Hin. tauto.
    + apply notes_known_select.
    + apply notes_known_filter_list.
    + repeat split.
      * intros n Hn. discriminate.
      * intros w [].
      * intros p w Hw. cbn in Hw. rewrite lookup_empty in Hw. discriminate.
  - unfold MainFrame_init.
    apply (Inv_filter suggestion_ok (fun _ _ => True));
      auto using suggestion_ok_select.
    intros a Ha. discriminate Ha.
Qed.

(** From start-up on, whatever keys arrive and whenever the screen is
    drawn, the session does not end in [TypeError], and a suggestion is the
    title of the selected note. *)
Lemma session_from_start `{T : Tables} mv (size : nat * nat)
  (events : list event) (ed : string) (nb : PlainTextNoteBook) :
  ~ raises TypeError (session mv size events (MainFrame_init ed nb)) /\
  suggestion_ok (state_of (session mv size events (MainFrame_init ed nb))).
Proof.
  destruct (MainFrame_init_known ed nb) as [Hk Hsug].
  destruct (session_no_TypeError mv size events _ Hk Hsug) as (H1 & _ & H3).
  split; assumption.
Qed.

